(** * ECG denoising and metrics: a shallow embedding of [ecgDenoising.py]
      and [ecgAnalyses.py]

    Samples and wavelet coefficients are rationals ([Q]): the embedding keeps
    the order comparisons, the in-place updates, the slicing and the control
    flow of the Python source and leaves binary64 rounding out.  NumPy's
    non-finite results (the mean of an empty array, a division by zero) are
    kept, as the values [NaN], [PInf] and [NInf] of [npfloat].  The calls into
    PyWavelets, SciPy and the square root are parameters of the functions that
    use them. *)

From stdpp Require Import base list strings gmap pretty.
From Stdlib Require Import ZArith QArith Qabs Qminmax Lia.

Close Scope Q_scope.
Open Scope string_scope.
Open Scope list_scope.
Open Scope Z_scope.

(** ** Python values that the functions raise or return *)

Module Py.

(** The exceptions a call can end in.  [LibraryError] carries the class name
    of any other exception a library raises. *)
Inductive PyExn : Type :=
  | NameError (name : string)
  | UnboundLocalError (name : string)
  | TypeError
  | IndexError
  | ValueError
  | AxisError
  | LibraryError (cls : string).


(** A call either returns a value or raises. *)
Inductive PyResult (A : Type) : Type :=
  | Ok (a : A)
  | Raise (e : PyExn).

Arguments Ok {A} a.
Arguments Raise {A} e.

Definition bind {A B : Type} (c : PyResult A) (k : A -> PyResult B) : PyResult B :=
  match c with
  | Ok a => k a
  | Raise e => Raise e
  end.


(** [a[i]] on a list, for an index that is already a natural number. *)
Definition getitem {A : Type} (l : list A) (i : nat) : PyResult A :=
  match l !! i with
  | Some a => Ok a
  | None => Raise IndexError
  end.

(** [slice.indices]: a negative bound counts from the end, and both bounds
    are clamped into [0, len]. *)
Definition slice_bound (len i : Z) : Z :=
  if i <? 0 then Z.max 0 (i + len) else Z.min i len.

(** [l[start:stop]] for a list or a one-dimensional array. *)
Definition slice {A : Type} (l : list A) (start stop : Z) : list A :=
  let n := Z.of_nat (length l) in
  let lo := slice_bound n start in
  let hi := slice_bound n stop in
  take (Z.to_nat (hi - lo)) (drop (Z.to_nat lo) l).

(** A [for] loop whose body may raise: the state is threaded through the
    iterations and the first exception ends the loop. *)
Fixpoint for_loop {S X : Type} (body : S -> X -> PyResult S) (xs : list X) (st : S)
    : PyResult S :=
  match xs with
  | [] => Ok st
  | x :: rest =>
      match body st x with
      | Ok st' => for_loop body rest st'
      | Raise e => Raise e
      end
  end.

(** [str(n)] for an int. *)
Definition str (n : Z) : string := pretty n.

End Py.

Export Py.

Declare Scope py_scope.
Delimit Scope py_scope with py.
Notation "'let!' x ':=' c 'in' k" := (Py.bind c (fun x => k))
  (at level 10, x pattern, c at level 100, k at level 200) : py_scope.
Open Scope py_scope.

(** ** NumPy scalars and reductions *)

Module Np.

(** A float64 in exact arithmetic: a finite rational or one of the three
    non-finite values.  Zero carries no sign. *)
Inductive npfloat : Type :=
  | Fin (q : Q)
  | PInf
  | NInf
  | NaN.

Definition np_neg (a : npfloat) : npfloat :=
  match a with
  | Fin q => Fin (- q)%Q
  | PInf => NInf
  | NInf => PInf
  | NaN => NaN
  end.

Definition np_add (a b : npfloat) : npfloat :=
  match a, b with
  | NaN, _ | _, NaN => NaN
  | Fin x, Fin y => Fin (x + y)%Q
  | PInf, NInf | NInf, PInf => NaN
  | PInf, _ | _, PInf => PInf
  | NInf, _ | _, NInf => NInf
  end.

Definition np_sub (a b : npfloat) : npfloat := np_add a (np_neg b).

Definition np_abs (a : npfloat) : npfloat :=
  match a with
  | Fin q => Fin (Qabs q)
  | PInf | NInf => PInf
  | NaN => NaN
  end.

Definition Qlt_bool (x y : Q) : bool := negb (Qle_bool y x).

(** [a / b] on arrays and NumPy scalars: a division by zero gives an
    infinity or [NaN] (with a warning), it does not raise. *)
Definition np_div (a b : npfloat) : npfloat :=
  match a, b with
  | NaN, _ | _, NaN => NaN
  | Fin x, Fin y =>
      if Qeq_bool y 0 then
        if Qeq_bool x 0 then NaN else if Qlt_bool 0 x then PInf else NInf
      else Fin (x / y)%Q
  | Fin _, _ => Fin 0
  | _, PInf | _, NInf => NaN
  | PInf, Fin y => if Qlt_bool y 0 then NInf else PInf
  | NInf, Fin y => if Qlt_bool y 0 then PInf else NInf
  end.

(** Comparisons: every comparison with [NaN] is false. *)
Definition np_le (a b : npfloat) : bool :=
  match a, b with
  | NaN, _ | _, NaN => false
  | Fin x, Fin y => Qle_bool x y
  | NInf, _ | _, PInf => true
  | _, _ => false
  end.

Definition np_gt (a b : npfloat) : bool :=
  match a, b with
  | NaN, _ | _, NaN => false
  | Fin x, Fin y => Qlt_bool y x
  | PInf, PInf => false
  | PInf, _ => true
  | Fin _, NInf => true
  | _, _ => false
  end.

Definition np_eq (a b : npfloat) : bool :=
  match a, b with
  | Fin x, Fin y => Qeq_bool x y
  | PInf, PInf | NInf, NInf => true
  | _, _ => false
  end.

(** The square root of a non-negative rational, as the float unit computes
    it: a parameter of the model. *)
Class Sqrt : Type := fsqrt : Q -> Q.

Definition np_sqrt `{Sqrt} (a : npfloat) : npfloat :=
  match a with
  | Fin q => if Qlt_bool q 0 then NaN else Fin (fsqrt q)
  | PInf => PInf
  | NInf | NaN => NaN
  end.

Definition Qsum (xs : list Q) : Q := foldr Qplus 0%Q xs.

Definition count (xs : list Q) : Q := inject_Z (Z.of_nat (length xs)).

(** [np.mean] of a one-dimensional array, or of all the entries of an array
    given flattened: the sum over the number of entries, [NaN] for none.
    The sum and the quotient are exact: the value is the one that NumPy's
    float mean approximates, and equals it where no rounding occurs (no
    entry, or a [NaN] result).  Properties that turn on the rounding are
    stated over module [Rounded], where the routine is a parameter. *)
Definition np_mean (xs : list Q) : npfloat := np_div (Fin (Qsum xs)) (Fin (count xs)).

(** [np.mean] of an array whose entries may be non-finite, exact in the
    same way. *)
Definition np_mean_f (xs : list npfloat) : npfloat :=
  np_div (foldr np_add (Fin 0) xs) (Fin (inject_Z (Z.of_nat (length xs)))).

(** [np.var]: the sum of the squared deviations from the mean over
    [max(N - ddof, 0)], in exact arithmetic as [np_mean] is. *)
Definition np_var (xs : list Q) (ddof : Z) : npfloat :=
  let arrmean := (Qsum xs / count xs)%Q in
  let x := map (fun v => ((v - arrmean) * (v - arrmean))%Q) xs in
  np_div (Fin (Qsum x)) (Fin (inject_Z (Z.max (Z.of_nat (length xs) - ddof) 0))).

Definition np_std `{Sqrt} (xs : list Q) (ddof : Z) : npfloat := np_sqrt (np_var xs ddof).

(** An int64 result: the integer reduced into [-2^63, 2^63). *)
Definition wrap64 (z : Z) : Z := (z + 2 ^ 63) mod 2 ^ 64 - 2 ^ 63.

(** [np.diff] of an index array, which holds int64 values: a difference
    that leaves the int64 range wraps around. *)
Fixpoint np_diff (xs : list Z) : list Z :=
  match xs with
  | a :: (b :: _) as rest => wrap64 (b - a) :: np_diff rest
  | _ => []
  end.

(** Whether the rows of a nested sequence all have one length. *)
Definition homogeneous {A : Type} (rows : list (list A)) : bool :=
  match rows with
  | [] => true
  | r :: rest => forallb (fun r' => Nat.eqb (length r') (length r)) rest
  end.

(** [np.asanyarray] of a sequence of rows: ragged rows are refused (NumPy
    1.24 and later). *)
Definition np_asanyarray (rows : list (list Q)) : PyResult (list (list Q)) :=
  if homogeneous rows then Ok rows else Raise ValueError.

(** [np.mean] of a list of one-dimensional arrays: the list is first made
    an array, then every entry is pooled. *)
Definition np_mean_rows (rows : list (list Q)) : PyResult npfloat :=
  let! arr := np_asanyarray rows in
  Ok (np_mean (concat arr)).

(** The one-dimensional lanes of an array along [axis].  An empty sequence
    of rows is the one-dimensional array of shape (0,). *)
Definition columns (rows : list (list Q)) : list (list Q) :=
  match rows with
  | [] => []
  | r :: _ => foldr (zip_with cons) (replicate (length r) []) rows
  end.

Definition lanes (arr : list (list Q)) (axis : Z) : PyResult (list (list Q)) :=
  match arr with
  | [] => if (axis =? 0) || (axis =? -1) then Ok [ [] ] else Raise AxisError
  | _ :: _ =>
      if (axis =? 0) || (axis =? -2) then Ok (columns arr)
      else if (axis =? 1) || (axis =? -1) then Ok arr
      else Raise AxisError
  end.

(** [arr.mean(axis)] and [arr.std(axis=axis, ddof=ddof)]. *)
Definition ndarray_mean (arr : list (list Q)) (axis : Z) : PyResult (list npfloat) :=
  let! ls := lanes arr axis in Ok (map np_mean ls).

Definition ndarray_std `{Sqrt} (arr : list (list Q)) (axis ddof : Z) : PyResult (list npfloat) :=
  let! ls := lanes arr axis in Ok (map (fun l => np_std l ddof) ls).

(** [np.where(sd == 0, 0, m / sd)]. *)
Definition np_where_zero (sd m : list npfloat) : list npfloat :=
  zip_with (fun s x => if np_eq s (Fin 0) then Fin 0 else np_div x s) sd m.

(** [np.max] and [np.min] of a one-dimensional array: an empty array has
    no maximum and the call raises. *)
Definition np_max (xs : list Q) : PyResult Q :=
  match xs with
  | [] => Raise ValueError
  | x :: rest => Ok (foldl Qmax x rest)
  end.

Definition np_min (xs : list Q) : PyResult Q :=
  match xs with
  | [] => Raise ValueError
  | x :: rest => Ok (foldl Qmin x rest)
  end.

End Np.

Export Np.

(** ** Float products that become indices

    [int(c * n)] for a float literal [c] and an int [n] is computed in
    binary64: [n] is converted to the nearest float, the product is rounded to
    the nearest float, ties to even, and [int] drops the fraction.  A float
    literal is given by its significand and scale, [mant * 2^-expo]. *)

Module Float64.

(** A non-negative integer, counted in any fixed power of two, rounded to 53
    significant bits. *)
Definition round53 (N : Z) : Z :=
  let s := Z.log2 N - 52 in
  if s <=? 0 then N
  else
    let m := N / 2 ^ s in
    let r := N mod 2 ^ s in
    let half := 2 ^ (s - 1) in
    (if (half <? r) || ((r =? half) && Z.odd m) then m + 1 else m) * 2 ^ s.

Record literal : Type := { mant : Z; expo : Z }.

(** The literals [0.35], [0.25], [0.08] and [0.2]. *)
Definition lit_0_35 : literal := {| mant := 3152519739159347; expo := 53 |}.
Definition lit_0_25 : literal := {| mant := 1; expo := 2 |}.
Definition lit_0_08 : literal := {| mant := 5764607523034235; expo := 56 |}.
Definition lit_0_2 : literal := {| mant := 3602879701896397; expo := 54 |}.

(** [int(c * n)]. *)
Definition int_mul (c : literal) (n : Z) : Z :=
  Z.sgn n * (round53 (round53 (Z.abs n) * mant c) / 2 ^ expo c).

(** The float nearest to a rational, ties to even (overflow and subnormal
    numbers left out).  The magnitude is scaled to an integer of 55 bits or
    more, with one more bit below it that records whether anything was cut
    off, and that integer is rounded to 53 bits. *)
Definition round_q (q : Q) : Q :=
  let a := Z.abs (Qnum q) in
  let b := Zpos (Qden q) in
  if a =? 0 then 0%Q
  else
    let k := Z.max 0 (55 + Z.log2 b - Z.log2 a) in
    let N := a * 2 ^ k / b in
    let sticky := if (a * 2 ^ k) mod b =? 0 then 0 else 1 in
    Qred (Z.sgn (Qnum q) * round53 (2 * N + sticky) # Z.to_pos (2 ^ (k + 1))).

(** A NumPy scalar rounded to a float, and the float quotient of two
    numbers: both operands become floats, and the quotient is rounded. *)
Definition np_round (a : npfloat) : npfloat :=
  match a with
  | Fin q => Fin (round_q q)
  | PInf | NInf | NaN => a
  end.

Definition np_divide (a b : npfloat) : npfloat :=
  np_round (np_div (np_round a) (np_round b)).

End Float64.

(** ** [ecgDenoising.py] *)

Module EcgDenoising.

(** The part of PyWavelets that [swtDenoise] calls.  A wavelet object is
    represented by its name. *)
Record PyWavelets : Type := {
  pywt_Wavelet : string -> PyResult string;
  pywt_dwt : list Q -> string -> PyResult (list Q * list Q);
  pywt_idwt : list Q -> list Q -> string -> string -> PyResult (list Q);
  pywt_wavedec : list Q -> string -> Z -> PyResult (list (list Q));
  pywt_waverec : list (list Q) -> string -> PyResult (list Q)
}.

(** One iteration of the thresholding loop:
    [if abs(cDetailed[k]) >= setThreshold: cDetailed[k] = 0].  The loop only
    passes indices below the length. *)
Definition threshold_step (setThreshold : Q) (cDetailed : list Q) (k : nat) : list Q :=
  match cDetailed !! k with
  | Some c => if Qle_bool setThreshold (Qabs c) then <[k := 0%Q]> cDetailed else cDetailed
  | None => cDetailed
  end.

(** [for k in range(0, len(cDetailed) - 1): ...], updating the array in
    place. *)
Definition threshold_loop (cDetailed : list Q) (setThreshold : Q) : list Q :=
  foldl (threshold_step setThreshold) cDetailed (seq 0 (length cDetailed - 1)).

(** Lines 50-56 of [swtDenoise]: the array at index 1 of the coefficient list
    is thresholded in place. *)
Definition threshold_multilevel (multilevelCoefficients : list (list Q))
    (setThreshold : Q) : PyResult (list (list Q)) :=
  let! cDetailed := getitem multilevelCoefficients 1 in
  let cDetailed := threshold_loop cDetailed setThreshold in
  Ok (<[1%nat := cDetailed]> multilevelCoefficients).

Definition swtDenoise (pywt : PyWavelets) (signal : list Q)
    (waveletChoose : string) (orderChoose : Z) (levelChoose : Z)
    (setThreshold : Q) : PyResult (list Q) :=
  let waveletOrder := waveletChoose +:+ str orderChoose in
  if levelChoose =? 1 then
    let! (cApproximate, cDetailed) := pywt_dwt pywt signal waveletOrder in
    let! wv := pywt_Wavelet pywt waveletOrder in
    let cDetailed := threshold_loop cDetailed setThreshold in
    pywt_idwt pywt cApproximate cDetailed waveletOrder "constant"
  else
    let! wv := pywt_Wavelet pywt waveletOrder in
    let! multilevelCoefficients := pywt_wavedec pywt signal waveletOrder levelChoose in
    let! wv := pywt_Wavelet pywt waveletOrder in
    let! multilevelCoefficients := threshold_multilevel multilevelCoefficients setThreshold in
    pywt_waverec pywt multilevelCoefficients wv.

(** The names bound in the module's namespace once it is imported: the
    imported modules and the four functions. *)
Definition module_globals : gset string :=
  {[ "plt"; "pd"; "np"; "pywt"; "math"; "scipy"; "swtDenoise";
     "calculateSTDev_SNR"; "calulatePSD_SNR"; "calculateGraph_SNR" ]}.

(** Reading a name that is no local of the function. *)
Definition load_global (name : string) : PyResult unit :=
  if decide (name ∈ module_globals) then Ok tt else Raise (NameError name).

(** [calculateSTDev_SNR].  The value of [snrAtPeaks] is never used; what is
    kept of its statement is the reading of the three names it mentions,
    in evaluation order. *)
Definition calculateSTDev_SNR `{Sqrt} (arr : list (list Q)) (axis ddof : Z)
    : PyResult (list npfloat) :=
  let! arr := np_asanyarray arr in
  let! m := ndarray_mean arr axis in
  let! sd := ndarray_std arr axis ddof in
  let! _ := load_global "signal" in
  let! _ := load_global "peaks" in
  let! _ := load_global "denoised_ecg" in
  Ok (np_where_zero sd m).

(** The samples of the denoised signal that [calulatePSD_SNR] passes to
    the spectral estimate of the noise:
    [denoised_ecg[5: len(denoised_ecg) - 5]]. *)
Definition psd_noise_samples (denoised_ecg : list Q) : list Q :=
  slice denoised_ecg 5 (Z.of_nat (length denoised_ecg) - 5).

End EcgDenoising.


(** ** [ecgAnalyses.py] *)

Module EcgAnalyses.

(** [scipy.signal.find_peaks] on a one-dimensional array, with no optional
    argument: the indices of the local maxima. *)
Class SciPy : Type := find_peaks : list Q -> list Z.

(** What [calculate_heart_rate] returns: the int of its first [return], or
    the tuple of its second. *)
Inductive HeartRate : Type :=
  | RetInt (z : Z)
  | RetTuple (heart_rate : npfloat) (rr_intervals : list npfloat).

Definition calculate_heart_rate (r_peak_indices : list Z) (sampling_rate : Z) : HeartRate :=
  if (length r_peak_indices <=? 1)%nat then RetInt 0
  else
    let rr_intervals :=
      map (fun d => Float64.np_divide (Fin (inject_Z d)) (Fin (inject_Z sampling_rate)))
          (np_diff r_peak_indices) in
    let heart_rate := Float64.np_divide (Fin 60) (np_mean_f rr_intervals) in
    RetTuple heart_rate rr_intervals.

Definition analyze_rhythm `{Sqrt} (rr_intervals : list Q) (threshold : Q) : string :=
  let std_dev := np_std rr_intervals 0 in
  if np_le std_dev (Fin threshold) then "Regular" else "Irregular".

(** [int(0.08 * sampling_rate)] and [int(0.2 * sampling_rate)] for an int
    sampling rate: [int] truncates towards zero. *)
Definition st_segment_duration (sampling_rate : Z) : Z := Z.quot (8 * sampling_rate) 100.
Definition t_segment_start (sampling_rate : Z) : Z := Z.quot (2 * sampling_rate) 10.

Definition st_segments (ecg_signal : list Q) (r_peak_indices : list Z) (sampling_rate : Z)
    : list (list Q) :=
  map (fun r_peak =>
         slice ecg_signal (r_peak + t_segment_start sampling_rate)
               (r_peak + t_segment_start sampling_rate + st_segment_duration sampling_rate))
      r_peak_indices.

Definition tp_segments (ecg_signal : list Q) (r_peak_indices : list Z) (sampling_rate : Z)
    : list (list Q) :=
  map (fun r_peak => slice ecg_signal (r_peak - st_segment_duration sampling_rate) r_peak)
      r_peak_indices.

Definition st_amplitudes (st_baseline : npfloat) (segments : list (list Q)) : list npfloat :=
  map (fun st_segment => np_sub (np_mean st_segment) st_baseline) segments.

(** The loop over [st_amplitudes] with its early [return "Abnormal"]. *)
Fixpoint st_status (amplitudes : list npfloat) : string :=
  match amplitudes with
  | [] => "Normal"
  | st_amplitude :: rest =>
      if np_gt (np_abs st_amplitude) (Fin (1 # 10)) then "Abnormal" else st_status rest
  end.

Definition analyze_st_segment (ecg_signal : list Q) (r_peak_indices : list Z)
    (sampling_rate : Z) : PyResult string :=
  let! st_baseline := np_mean_rows (tp_segments ecg_signal r_peak_indices sampling_rate) in
  Ok (st_status (st_amplitudes st_baseline
                   (st_segments ecg_signal r_peak_indices sampling_rate))).

(** *** [analyze_pr_interval]

    The function reads [r_peak_indices] and [ecg_data], which are neither
    parameters nor locals nor names the module binds.  [globals] holds the
    bindings of such names that a caller may have added to the module's
    namespace; it is empty for the module as imported. *)

(** A number held in a local: an int or a float. *)
Inductive PyNum : Type :=
  | PInt (z : Z)
  | PFloat (q : Q).

Inductive PyObject : Type :=
  | ObjModule
  | ObjFunction
  | ObjInts (l : list Z)
  | ObjFloats (l : list Q)
  | ObjOther (elements : PyResult (list PyNum))
             (subscript : PyNum -> PyNum -> PyResult (list Q)).

Definition num_value (n : PyNum) : Q :=
  match n with PInt z => inject_Z z | PFloat q => q end.

Definition num_add_int (n : PyNum) (i : Z) : PyNum :=
  match n with PInt z => PInt (z + i) | PFloat q => PFloat (q + inject_Z i)%Q end.

Definition load_name (globals : gmap string PyObject) (name : string) : PyResult PyObject :=
  match globals !! name with
  | Some v => Ok v
  | None => Raise (NameError name)
  end.

(** [for x in obj]: the elements of a list or an array, what the object's
    own iteration gives for any other object, a [TypeError] for a module or
    a function. *)
Definition iterate (obj : PyObject) : PyResult (list PyNum) :=
  match obj with
  | ObjInts l => Ok (map PInt l)
  | ObjFloats l => Ok (map PFloat l)
  | ObjOther elements _ => elements
  | ObjModule | ObjFunction => Raise TypeError
  end.

(** [obj[start:stop]].  A list or an array takes int bounds only; any other
    object answers with its own [__getitem__], which may take float bounds
    (a Series with a float index does); a module or a function cannot be
    subscripted. *)
Definition getslice (obj : PyObject) (start stop : PyNum) : PyResult (list Q) :=
  match obj with
  | ObjInts l =>
      match start, stop with
      | PInt a, PInt b => Ok (map inject_Z (slice l a b))
      | _, _ => Raise TypeError
      end
  | ObjFloats l =>
      match start, stop with
      | PInt a, PInt b => Ok (slice l a b)
      | _, _ => Raise TypeError
      end
  | ObjOther _ subscript => subscript start stop
  | ObjModule | ObjFunction => Raise TypeError
  end.

(** [max(0, r_peak - p_peak_search_window)]: the int 0 unless the float
    difference is larger. *)
Definition p_search_start (p_peak_search_window : Q) (r_peak : PyNum) : PyNum :=
  let t := (num_value r_peak - p_peak_search_window)%Q in
  if Qlt_bool 0 t then PFloat t else PInt 0.

(** Body of the first loop; the state is [p_peak_indices]. *)
Definition p_peak_body `{SciPy} (globals : gmap string PyObject)
    (p_peak_search_window : Q) (p_peak_indices : list PyNum) (r_peak : PyNum)
    : PyResult (list PyNum) :=
  let search_start := p_search_start p_peak_search_window r_peak in
  let search_end := r_peak in
  let! ecg_data := load_name globals "ecg_data" in
  let! window := getslice ecg_data search_start search_end in
  let p_peak := find_peaks window in
  match p_peak with
  | first :: _ => Ok (p_peak_indices ++ [num_add_int search_start first])
  | [] => Ok p_peak_indices
  end.

(** Body of the second loop; the state is the pair of locals
    [(search_start, qrs_peak)], unbound before the first iteration. *)
Definition qrs_peak_body `{SciPy} (globals : gmap string PyObject)
    (qrs_peak_search_window : Q) (locals : option (PyNum * list Z)) (r_peak : PyNum)
    : PyResult (option (PyNum * list Z)) :=
  let search_start := r_peak in
  let search_end := PFloat (num_value r_peak + qrs_peak_search_window)%Q in
  let! ecg_data := load_name globals "ecg_data" in
  let! window := getslice ecg_data search_start search_end in
  let qrs_peak := find_peaks window in
  Ok (Some (search_start, qrs_peak)).

Definition analyze_pr_interval `{SciPy} (globals : gmap string PyObject)
    (rr_intervals : list Q) (sampling_rate : Z) (threshold : Q) : PyResult string :=
  let p_peak_search_window := 40%Q in
  let p_peak_indices := [] in
  let! r_peak_indices := load_name globals "r_peak_indices" in
  let! r_peaks := iterate r_peak_indices in
  let! p_peak_indices :=
    for_loop (p_peak_body globals p_peak_search_window) r_peaks p_peak_indices in
  let qrs_peak_search_window := 100%Q in
  let qrs_peak_indices := [] in
  let! r_peak_indices := load_name globals "r_peak_indices" in
  let! r_peaks := iterate r_peak_indices in
  let! locals := for_loop (qrs_peak_body globals qrs_peak_search_window) r_peaks None in
  match locals with
  | None => Raise (UnboundLocalError "qrs_peak")
  | Some (search_start, qrs_peak) =>
      let qrs_peak_indices :=
        match qrs_peak with
        | first :: _ => qrs_peak_indices ++ [num_add_int search_start first]
        | [] => qrs_peak_indices
        end in
      let pr_intervals :=
        zip_with (fun p_peak qrs_peak =>
                    np_div (Fin (num_value qrs_peak - num_value p_peak)%Q)
                           (Fin (inject_Z sampling_rate)))
                 p_peak_indices qrs_peak_indices in
      let mean_pr_interval := np_mean_f pr_intervals in
      if np_gt (np_abs (np_sub mean_pr_interval (Fin (2 # 10)))) (Fin (4 # 100))
      then Ok "Abnormal" else Ok "Normal"
  end.

(** *** [find_r_peaks] *)

(** [find_peaks(x, height=h)]: SciPy keeps, of the local maxima, those whose
    sample is at least [h]. *)
Definition find_peaks_height `{SciPy} (x : list Q) (height : Q) : list Z :=
  List.filter
    (fun peak =>
       if peak <? 0 then false
       else match x !! Z.to_nat peak with
            | Some v => Qle_bool height v
            | None => false
            end)
    (find_peaks x).

Definition find_r_peaks `{SciPy} (ecg_signal : list Q) (threshold : Q)
    (sampling_rate : Z) : list Z :=
  let peaks := find_peaks_height ecg_signal threshold in
  peaks.

(** *** [analyze_t_wave] *)

Definition t_wave_window (ecg_signal : list Q) : list Q :=
  let t_wave_start := Float64.int_mul Float64.lit_0_35 (Z.of_nat (length ecg_signal)) in
  let t_wave_duration := Float64.int_mul Float64.lit_0_25 (Z.of_nat (length ecg_signal)) in
  slice ecg_signal t_wave_start (t_wave_start + t_wave_duration).

Definition analyze_t_wave (ecg_signal : list Q) (threshold : Q) : PyResult string :=
  let! highest := np_max (t_wave_window ecg_signal) in
  let! lowest := np_min (t_wave_window ecg_signal) in
  let t_wave_amplitude := Float64.round_q (highest - lowest) in
  if Qlt_bool t_wave_amplitude threshold then Ok "Abnormal" else Ok "Normal".

End EcgAnalyses.

(** ** The analyses with NumPy's float routines left open

    [np.std], [np.mean] and the subtraction of two means round in binary64,
    in an order of operations that is NumPy's own.  In this module they are
    parameters, so that what is proved holds whatever they round to; the
    control flow, the slicing and the pooling are those of the source. *)

Module Rounded.

(** [analyze_rhythm], for [np_std] the function that [np.std] computes. *)
Definition analyze_rhythm (np_std : list Q -> npfloat) (rr_intervals : list Q)
    (threshold : Q) : string :=
  let std_dev := np_std rr_intervals in
  if np_le std_dev (Fin threshold) then "Regular" else "Irregular".

(** [calculate_heart_rate], for [np_mean] the function that [np.mean]
    computes on a float array. *)
Definition calculate_heart_rate (np_mean : list npfloat -> npfloat)
    (r_peak_indices : list Z) (sampling_rate : Z) : EcgAnalyses.HeartRate :=
  if (length r_peak_indices <=? 1)%nat then EcgAnalyses.RetInt 0
  else
    let rr_intervals :=
      map (fun d => Float64.np_divide (Fin (inject_Z d)) (Fin (inject_Z sampling_rate)))
          (np_diff r_peak_indices) in
    let heart_rate := Float64.np_divide (Fin 60) (np_mean rr_intervals) in
    EcgAnalyses.RetTuple heart_rate rr_intervals.

(** [mean] is [np.mean] on the entries of an array, and [above_limit m b]
    the test [abs(m - b) > 0.1] as the floats decide it. *)
Record kernel : Type := {
  mean : list Q -> npfloat;
  above_limit : npfloat -> npfloat -> bool
}.

(** The loop over the ST amplitudes, each the mean of an ST segment less
    the baseline, with its early [return "Abnormal"]. *)
Fixpoint st_status (K : kernel) (st_baseline : npfloat) (st_means : list npfloat) : string :=
  match st_means with
  | [] => "Normal"
  | st_mean :: rest =>
      if above_limit K st_mean st_baseline then "Abnormal"
      else st_status K st_baseline rest
  end.

Definition analyze_st_segment (K : kernel) (ecg_signal : list Q)
    (r_peak_indices : list Z) (sampling_rate : Z) : PyResult string :=
  let! pooled :=
    np_asanyarray (EcgAnalyses.tp_segments ecg_signal r_peak_indices sampling_rate) in
  let st_baseline := mean K (concat pooled) in
  Ok (st_status K st_baseline
        (map (mean K) (EcgAnalyses.st_segments ecg_signal r_peak_indices sampling_rate))).

(** The kernel of exact arithmetic. *)
Definition exact : kernel :=
  {| mean := np_mean;
     above_limit := fun m b => np_gt (np_abs (np_sub m b)) (Fin (1 # 10)) |}.

End Rounded.

(** ** Concrete libraries, for evaluating the functions on inputs *)

(** A rational Haar filter bank in the place of PyWavelets' wavelet [db1]
    (alias [haar]): the approximation of a pair of samples is its half-sum
    and the detail its half-difference, where PyWavelets divides the sum and
    the difference by the square root of 2.  A coefficient of level [n] is
    the one of PyWavelets over [2^(n/2)], and a threshold is compared with
    it on that scale; the two agree on which coefficients are zero and on
    every reconstruction from coefficients that are kept or zeroed.  The
    properties are proved for every library; the stand-in only serves to
    evaluate them on inputs. *)
Module Haar.

Definition known_wavelet (name : string) : bool :=
  String.eqb name "db1" || String.eqb name "haar".

Definition Wavelet (name : string) : PyResult string :=
  if known_wavelet name then Ok name else Raise ValueError.

(** Single-level transform.  The default mode [symmetric] pairs the last
    sample of an odd-length signal with itself. *)
Fixpoint dwt_pairs (data : list Q) : list Q * list Q :=
  match data with
  | [] => ([], [])
  | [a] => ([Qred a], [0%Q])
  | a :: b :: rest =>
      let (cA, cD) := dwt_pairs rest in
      (Qred ((a + b) / 2) :: cA, Qred ((a - b) / 2) :: cD)
  end.

Definition dwt (data : list Q) (name : string) : PyResult (list Q * list Q) :=
  let! _ := Wavelet name in
  match data with
  | [] => Raise ValueError
  | _ :: _ => Ok (dwt_pairs data)
  end.

Fixpoint idwt_pairs (cA cD : list Q) : list Q :=
  match cA, cD with
  | a :: cA', d :: cD' => Qred (a + d) :: Qred (a - d) :: idwt_pairs cA' cD'
  | _, _ => []
  end.

Definition idwt (cA cD : list Q) (name mode : string) : PyResult (list Q) :=
  let! _ := Wavelet name in
  if Nat.eqb (length cA) (length cD) then Ok (idwt_pairs cA cD) else Raise ValueError.

(** [wavedec]: [level] single-level transforms of the running approximation;
    the result is [cA_n; cD_n; ...; cD_1]. *)
Fixpoint wavedec_levels (n : nat) (name : string) (a : list Q)
    (coeffs_list : list (list Q)) : PyResult (list (list Q)) :=
  match n with
  | O => Ok (a :: coeffs_list)
  | S n' =>
      let! (a', d) := dwt a name in
      wavedec_levels n' name a' (d :: coeffs_list)
  end.

Definition wavedec (data : list Q) (name : string) (level : Z) : PyResult (list (list Q)) :=
  let! _ := Wavelet name in
  if level <? 0 then Raise ValueError
  else wavedec_levels (Z.to_nat level) name data [].

Fixpoint waverec_levels (name : string) (a : list Q) (details : list (list Q))
    : PyResult (list Q) :=
  match details with
  | [] => Ok a
  | d :: rest =>
      let a := if Nat.eqb (length a) (length d + 1) then removelast a else a in
      let! a := idwt a d name "symmetric" in
      waverec_levels name a rest
  end.

Definition waverec (coeffs : list (list Q)) (wv : string) : PyResult (list Q) :=
  match coeffs with
  | [] => Raise ValueError
  | a :: details => waverec_levels wv a details
  end.

Definition pywt : EcgDenoising.PyWavelets :=
  {| EcgDenoising.pywt_Wavelet := Wavelet;
     EcgDenoising.pywt_dwt := dwt;
     EcgDenoising.pywt_idwt := idwt;
     EcgDenoising.pywt_wavedec := wavedec;
     EcgDenoising.pywt_waverec := waverec |}.

End Haar.

(** The square root rounded down to a multiple of 2^-32, and SciPy's rule
    for local maxima: a sample larger than its left neighbour, followed by
    equal samples and then by a smaller one; a flat top counts once, at its
    middle. *)
Module Concrete.

Definition Qsqrt (q : Q) : Q :=
  Qred (Z.sqrt (Qnum q * 2 ^ 64 / Zpos (Qden q)) # 2 ^ 32).

Fixpoint scan_peaks (i : Z) (prev : Q) (rise : option Z) (xs : list Q) : list Z :=
  match xs with
  | [] => []
  | x :: rest =>
      if Qlt_bool prev x then scan_peaks (i + 1) x (Some i) rest
      else if Qlt_bool x prev then
        match rise with
        | Some left_edge => ((left_edge + (i - 1)) / 2) :: scan_peaks (i + 1) x None rest
        | None => scan_peaks (i + 1) x None rest
        end
      else scan_peaks (i + 1) x rise rest
  end.

Definition local_maxima (xs : list Q) : list Z :=
  match xs with
  | [] => []
  | x0 :: rest => scan_peaks 1 x0 None rest
  end.

(** Sixty samples at 100 Hz: flat at 0 but for eight samples at 1 from
    index 42 on. *)
Definition step_signal : list Q :=
  replicate 42 0%Q ++ replicate 8 1%Q ++ replicate 10 0%Q.

(** A pandas Series of floats over the float index 0.0, 1.0, 2.0, ...:
    iterating gives the values, and [s[a:b]] selects by label, both ends
    included, for int and for float bounds alike. *)
Definition float_indexed_series (values : list Q) : EcgAnalyses.PyObject :=
  EcgAnalyses.ObjOther
    (Ok (map EcgAnalyses.PFloat values))
    (fun start stop =>
       Ok (map snd
             (List.filter
                (fun entry =>
                   Qle_bool (EcgAnalyses.num_value start) (inject_Z (fst entry))
                   && Qle_bool (inject_Z (fst entry)) (EcgAnalyses.num_value stop))
                (zip (seqZ 0 (Z.of_nat (length values))) values)))).

End Concrete.

(** ** Vocabulary of the specification *)

Module Spec.

(** The hard gate of the specification: a coefficient whose absolute value
    reaches the threshold becomes 0, a smaller one is kept. *)
Definition hard_gate (threshold c : Q) : Q :=
  if Qle_bool threshold (Qabs c) then 0%Q else c.

(** PyWavelets lays a decomposition of [n] levels out as
    [cA_n; cD_n; ...; cD_1]: the detail sequence of level [j] is the entry
    [n + 1 - j], and the first (finest) level is the last entry. *)
Definition detail_level (coeffs : list (list Q)) (j : nat) : option (list Q) :=
  if bool_decide (1 <= j < length coeffs)%nat then coeffs !! (length coeffs - j)%nat
  else None.


(** Two sequences of one length that differ by at most [eps] in every
    position. *)
Definition within_tolerance (eps : Q) (a b : list Q) : bool :=
  Nat.eqb (length a) (length b) &&
  forallb (fun p => Qle_bool (Qabs (fst p - snd p)) eps) (zip a b).

(** Both windows of an R-peak lie inside the signal. *)
Definition windows_in_bounds (ecg_signal : list Q) (sampling_rate r_peak : Z) : bool :=
  (0 <=? r_peak - EcgAnalyses.st_segment_duration sampling_rate) &&
  (r_peak <=? Z.of_nat (length ecg_signal)) &&
  (0 <=? r_peak + EcgAnalyses.t_segment_start sampling_rate) &&
  (r_peak + EcgAnalyses.t_segment_start sampling_rate
     + EcgAnalyses.st_segment_duration sampling_rate <=? Z.of_nat (length ecg_signal)).

(** The two windows of an R-peak in which [analyze_pr_interval] searches:
    the 40 samples before it for a P-peak, the 100 after it for a
    QRS-peak. *)
Definition p_window (ecg_data : EcgAnalyses.PyObject) (r_peak : EcgAnalyses.PyNum)
    : PyResult (list Q) :=
  EcgAnalyses.getslice ecg_data (EcgAnalyses.p_search_start 40 r_peak) r_peak.

Definition qrs_window (ecg_data : EcgAnalyses.PyObject) (r_peak : EcgAnalyses.PyNum)
    : PyResult (list Q) :=
  EcgAnalyses.getslice ecg_data r_peak
    (EcgAnalyses.PFloat (EcgAnalyses.num_value r_peak + 100)%Q).

End Spec.

Import EcgDenoising EcgAnalyses Spec.

(** * Properties *)

(** ** The thresholding loop *)

Section ThresholdLoop.

Variable setThreshold : Q.

Lemma threshold_prefix (cDetailed : list Q) (n : nat) :
  (n <= length cDetailed)%nat ->
  foldl (threshold_step setThreshold) cDetailed (seq 0 n)
  = map (hard_gate setThreshold) (take n cDetailed) ++ drop n cDetailed.
Proof.
  induction n as [|n IH]; intros Hn.
  - by rewrite take_0, drop_0.
  - rewrite seq_S, foldl_app, IH by lia. simpl.
    destruct (lookup_lt_is_Some_2 cDetailed n) as [c Hc]; [lia|].
    rewrite (take_S_r _ _ _ Hc), (drop_S _ _ _ Hc), map_app, <- app_assoc. simpl.
    set (done_part := map (hard_gate setThreshold) (take n cDetailed)).
    assert (Hlen : length done_part = n).
    { unfold done_part. rewrite length_map, length_take. lia. }
    unfold threshold_step.
    rewrite (list_lookup_middle done_part _ c n) by done.
    unfold hard_gate. destruct (Qle_bool setThreshold (Qabs c)); [|done].
    rewrite insert_app_r_alt by lia.
    by rewrite Hlen, Nat.sub_diag.
Qed.

Lemma threshold_loop_closed (cDetailed : list Q) :
  threshold_loop cDetailed setThreshold
  = map (hard_gate setThreshold) (take (length cDetailed - 1) cDetailed)
    ++ drop (length cDetailed - 1) cDetailed.
Proof. unfold threshold_loop. apply threshold_prefix. lia. Qed.

Lemma threshold_loop_snoc (init : list Q) (c : Q) :
  threshold_loop (init ++ [c]) setThreshold = map (hard_gate setThreshold) init ++ [c].
Proof.
  rewrite threshold_loop_closed, length_app. simpl.
  replace (length init + 1 - 1)%nat with (length init) by lia.
  by rewrite take_app_length, drop_app_length.
Qed.

Lemma threshold_loop_length (cDetailed : list Q) :
  length (threshold_loop cDetailed setThreshold) = length cDetailed.
Proof.
  rewrite threshold_loop_closed, length_app, length_map, length_take, length_drop. lia.
Qed.

Lemma threshold_loop_gated (cDetailed : list Q) (k : nat) (c : Q) :
  (S k < length cDetailed)%nat -> cDetailed !! k = Some c ->
  threshold_loop cDetailed setThreshold !! k = Some (hard_gate setThreshold c).
Proof.
  intros Hk Hc. rewrite threshold_loop_closed.
  rewrite lookup_app_l by (rewrite length_map, length_take; lia).
  rewrite list_lookup_fmap, lookup_take_lt by lia. by rewrite Hc.
Qed.

Lemma threshold_loop_last (cDetailed : list Q) :
  last (threshold_loop cDetailed setThreshold) = last cDetailed.
Proof.
  destruct (decide (cDetailed = [])) as [->|Hne]; [done|].
  destruct (exists_last Hne) as (init & c & ->).
  rewrite threshold_loop_snoc. by rewrite !last_snoc.
Qed.

End ThresholdLoop.

Lemma hard_gate_zero_threshold (c : Q) : hard_gate 0 c = 0%Q.
Proof.
  unfold hard_gate.
  destruct (Qle_bool 0 (Qabs c)) eqn:E; [done|].
  pose proof (Qabs_nonneg c) as H. apply Qle_bool_iff in H. congruence.
Qed.


(** ** The Haar filter bank *)

Lemma haar_pair (a b : Q) :
  (Qred (Qred ((a + b) / 2) + Qred ((a - b) / 2)) == a)%Q
  /\ (Qred (Qred ((a + b) / 2) - Qred ((a - b) / 2)) == b)%Q.
Proof. rewrite !Qred_correct. split; field. Qed.

(** Left alone, the details give the signal back: on an even number of
    samples the inverse transform undoes the transform. *)
Lemma haar_roundtrip (n : nat) (data : list Q) :
  length data = (2 * n)%nat ->
  Forall2 Qeq (Haar.idwt_pairs (Haar.dwt_pairs data).1 (Haar.dwt_pairs data).2) data.
Proof.
  revert data. induction n as [|n IH]; intros data Hlen.
  - destruct data; [constructor | discriminate].
  - destruct data as [|a [|b rest]]; simpl in Hlen; try lia.
    specialize (IH rest ltac:(lia)).
    cbn [Haar.dwt_pairs]. destruct (Haar.dwt_pairs rest) as [cA cD].
    cbn [fst snd Haar.idwt_pairs] in *.
    destruct (haar_pair a b) as [Ha Hb].
    constructor; [exact Ha|]. constructor; [exact Hb | exact IH].
Qed.

(** The coefficient list of the stand-in has PyWavelets' layout: its last
    entry is the detail sequence of the first single-level transform of the
    signal, and there is one detail entry per level. *)
Lemma haar_wavedec_levels_layout (n : nat) (name : string) (a : list Q)
    (acc coeffs : list (list Q)) :
  Haar.wavedec_levels n name a acc = Ok coeffs ->
  length coeffs = (n + length acc + 1)%nat
  /\ exists front, coeffs = front ++ acc.
Proof.
  revert a acc. induction n as [|n IH]; intros a acc; simpl.
  - intros [= <-]. simpl. split; [lia|]. by exists [a].
  - destruct (Haar.dwt a name) as [[a' d]|e]; cbn [Py.bind]; [|discriminate].
    intros Hrun. destruct (IH _ _ Hrun) as (Hlen & front & ->).
    simpl in Hlen. split; [lia|].
    exists (front ++ [d]). by rewrite <- app_assoc.
Qed.

Lemma haar_first_level_detail (data : list Q) (name : string) (level : Z)
    (coeffs : list (list Q)) (cA cD : list Q) :
  0 < level ->
  Haar.wavedec data name level = Ok coeffs ->
  Haar.dwt data name = Ok (cA, cD) ->
  length coeffs = S (Z.to_nat level) /\ detail_level coeffs 1 = Some cD.
Proof.
  intros Hlevel. unfold Haar.wavedec.
  destruct (Haar.Wavelet name); cbn [Py.bind]; [|discriminate].
  destruct (Z.ltb_spec level 0) as [|_]; [lia|].
  destruct (Z.to_nat level) as [|n] eqn:Hn; [lia|].
  simpl. intros Hrun Hdwt. rewrite Hdwt in Hrun. cbn [Py.bind] in Hrun.
  destruct (haar_wavedec_levels_layout _ _ _ _ _ Hrun) as (Hlen & front & ->).
  simpl in Hlen. split; [lia|].
  unfold detail_level. rewrite bool_decide_eq_true_2 by lia.
  rewrite length_app in *. simpl in *.
  replace (length front + 1 - 1)%nat with (length front) by lia.
  by rewrite list_lookup_middle.
Qed.

(** ** [swtDenoise] *)

Section SwtDenoise.

Variable pywt : PyWavelets.
Variables (signal : list Q) (waveletChoose : string) (orderChoose : Z).


Lemma swtDenoise_level_1 (setThreshold : Q) (cApproximate cDetailed : list Q) (wv : string) :
  pywt_dwt pywt signal (waveletChoose +:+ str orderChoose) = Ok (cApproximate, cDetailed) ->
  pywt_Wavelet pywt (waveletChoose +:+ str orderChoose) = Ok wv ->
  swtDenoise pywt signal waveletChoose orderChoose 1 setThreshold
  = pywt_idwt pywt cApproximate (threshold_loop cDetailed setThreshold)
              (waveletChoose +:+ str orderChoose) "constant".
Proof.
  intros Hdwt Hwv. unfold swtDenoise. change (1 =? 1) with true. cbv iota.
  rewrite Hdwt. cbn [Py.bind]. by rewrite Hwv.
Qed.

Lemma swtDenoise_multilevel (levelChoose : Z) (setThreshold : Q)
    (coeffs : list (list Q)) (cDetailed : list Q) (wv : string) :
  levelChoose <> 1 ->
  pywt_Wavelet pywt (waveletChoose +:+ str orderChoose) = Ok wv ->
  pywt_wavedec pywt signal (waveletChoose +:+ str orderChoose) levelChoose = Ok coeffs ->
  coeffs !! 1%nat = Some cDetailed ->
  swtDenoise pywt signal waveletChoose orderChoose levelChoose setThreshold
  = pywt_waverec pywt (<[1%nat := threshold_loop cDetailed setThreshold]> coeffs) wv.
Proof.
  intros Hlevel Hwv Hdec Hc. unfold swtDenoise.
  apply Z.eqb_neq in Hlevel. rewrite Hlevel, Hwv. cbn [Py.bind].
  rewrite Hdec. cbn [Py.bind]. unfold threshold_multilevel, getitem. by rewrite Hc.
Qed.


End SwtDenoise.

(** C1.  At level 1 the gate reaches every detail coefficient but the last:
    the loop runs over [range(0, len(cDetailed) - 1)], so the last
    coefficient goes into the inverse transform as it is, whatever its
    absolute value, while every earlier one is zeroed when its absolute
    value is at least the threshold and kept otherwise. *)
Theorem swtDenoise_level1_skips_last_detail (pywt : PyWavelets) (signal : list Q)
    (waveletChoose : string) (orderChoose : Z) (setThreshold : Q)
    (cApproximate init : list Q) (c : Q) (wv : string) :
  pywt_dwt pywt signal (waveletChoose +:+ str orderChoose) = Ok (cApproximate, init ++ [c]) ->
  pywt_Wavelet pywt (waveletChoose +:+ str orderChoose) = Ok wv ->
  swtDenoise pywt signal waveletChoose orderChoose 1 setThreshold
  = pywt_idwt pywt cApproximate (map (hard_gate setThreshold) init ++ [c])
              (waveletChoose +:+ str orderChoose) "constant".
Proof.
  intros Hdwt Hwv.
  rewrite (swtDenoise_level_1 _ _ _ _ _ _ _ _ Hdwt Hwv).
  by rewrite threshold_loop_snoc.
Qed.

(** The signal [1, 3, 5, 11] at threshold 1: the details are [-1, -3]; the
    last one has absolute value 3 >= 1 and is still there in the
    reconstruction, which differs from the one with both details zeroed. *)
Lemma swtDenoise_level1_skips_last_detail_witness :
  (swtDenoise Haar.pywt [1; 3; 5; 11]%Q "db" 1 1 1%Q
   = pywt_idwt Haar.pywt [2; 8]%Q (map (hard_gate 1) [(-1)%Q] ++ [(-3)%Q])
               ("db" +:+ str 1) "constant")
  /\ Qle_bool 1 (Qabs (-3)) = true
  /\ swtDenoise Haar.pywt [1; 3; 5; 11]%Q "db" 1 1 1%Q = Ok [2; 2; 5; 11]%Q
  /\ pywt_idwt Haar.pywt [2; 8]%Q [0; 0]%Q "db1" "constant" = Ok [2; 2; 8; 8]%Q.
Proof.
  split.
  - apply (swtDenoise_level1_skips_last_detail Haar.pywt [1; 3; 5; 11]%Q "db" 1 1%Q
             [2; 8]%Q [(-1)%Q] (-3)%Q "db1"); vm_compute; reflexivity.
  - repeat split; vm_compute; reflexivity.
Defined.

(** C2, as stated, fails: with two levels and threshold 2 the first-level
    details [-1, -3, -1, -7] reach the inverse transform untouched, although
    -3 is above the threshold and not the last entry, and it is the detail
    sequence of level 2 that changes. *)
Lemma swtDenoise_multilevel_first_level_untouched :
  exists coeffs coeffs',
    pywt_wavedec Haar.pywt [1; 3; 5; 11; 2; 4; 6; 20]%Q "db1" 2 = Ok coeffs
    /\ threshold_multilevel coeffs 2 = Ok coeffs'
    /\ swtDenoise Haar.pywt [1; 3; 5; 11; 2; 4; 6; 20]%Q "db" 1 2 2%Q
       = pywt_waverec Haar.pywt coeffs' "db1"
    /\ detail_level coeffs 1 = Some [-1; -3; -1; -7]%Q
    /\ detail_level coeffs' 1 = Some [-1; -3; -1; -7]%Q
    /\ Qle_bool 2 (Qabs (-3)) = true
    /\ detail_level coeffs 2 = Some [-3; -5]%Q
    /\ detail_level coeffs' 2 = Some [0; -5]%Q.
Proof.
  exists [[5; 8]; [-3; -5]; [-1; -3; -1; -7]]%Q, [[5; 8]; [0; -5]; [-1; -3; -1; -7]]%Q.
  repeat split; vm_compute; reflexivity.
Qed.

(** C2, amended.  For a level other than 1 the gate is applied to entry 1 of
    the coefficient list, which is the detail sequence of the deepest level:
    each of its coefficients before the last is zeroed when its absolute
    value is at least the threshold and kept otherwise.  Every other entry
    (the approximation and the details of all shallower levels, the first
    level among them) reaches the inverse transform unchanged. *)
Theorem swtDenoise_multilevel_gates_deepest_level (pywt : PyWavelets) (signal : list Q)
    (waveletChoose : string) (orderChoose levelChoose : Z) (setThreshold : Q)
    (wv : string) (coeffs : list (list Q)) (cDetailed : list Q) :
  levelChoose <> 1 ->
  pywt_Wavelet pywt (waveletChoose +:+ str orderChoose) = Ok wv ->
  pywt_wavedec pywt signal (waveletChoose +:+ str orderChoose) levelChoose = Ok coeffs ->
  coeffs !! 1%nat = Some cDetailed ->
  exists cDetailed',
    swtDenoise pywt signal waveletChoose orderChoose levelChoose setThreshold
    = pywt_waverec pywt (<[1%nat := cDetailed']> coeffs) wv
    /\ length cDetailed' = length cDetailed
    /\ (forall k c, (S k < length cDetailed)%nat -> cDetailed !! k = Some c ->
          cDetailed' !! k = Some (hard_gate setThreshold c))
    /\ detail_level (<[1%nat := cDetailed']> coeffs) (length coeffs - 1) = Some cDetailed'
    /\ (forall j, j <> 1%nat -> <[1%nat := cDetailed']> coeffs !! j = coeffs !! j)
    /\ (forall j, (S j < length coeffs)%nat ->
          detail_level (<[1%nat := cDetailed']> coeffs) j = detail_level coeffs j).
Proof.
  intros Hlevel Hwv Hdec Hc.
  exists (threshold_loop cDetailed setThreshold).
  pose proof (lookup_lt_Some _ _ _ Hc) as Hlen.
  split; [by apply swtDenoise_multilevel|].
  split; [apply threshold_loop_length|].
  split; [intros k c; apply threshold_loop_gated|].
  split.
  { unfold detail_level. rewrite length_insert.
    rewrite bool_decide_eq_true_2 by lia.
    replace (length coeffs - (length coeffs - 1))%nat with 1%nat by lia.
    by apply list_lookup_insert_eq. }
  split; [intros j Hj; by apply list_lookup_insert_ne|].
  intros j Hj. unfold detail_level. rewrite length_insert.
  case_bool_decide; [|done].
  apply list_lookup_insert_ne. lia.
Qed.

Lemma swtDenoise_multilevel_gates_deepest_level_witness :
  exists cDetailed',
    swtDenoise Haar.pywt [1; 3; 5; 11; 2; 4; 6; 20]%Q "db" 1 2 2%Q
    = pywt_waverec Haar.pywt
        (<[1%nat := cDetailed']> [[5; 8]; [-3; -5]; [-1; -3; -1; -7]]%Q) "db1"
    /\ cDetailed' !! 0%nat = Some (hard_gate 2 (-3)%Q).
Proof.
  destruct (swtDenoise_multilevel_gates_deepest_level Haar.pywt
              [1; 3; 5; 11; 2; 4; 6; 20]%Q "db" 1 2 2%Q "db1"
              [[5; 8]; [-3; -5]; [-1; -3; -1; -7]]%Q [-3; -5]%Q)
    as (cD' & Hrun & _ & Hgate & _).
  - lia.
  - vm_compute; reflexivity.
  - vm_compute; reflexivity.
  - reflexivity.
  - exists cD'. split; [exact Hrun|]. apply Hgate; [simpl; lia | reflexivity].
Defined.

(** C3, as stated, fails: at threshold 0 every coefficient passes the test
    [abs(c) >= 0], so the gated details are zeroed; the signal
    [1, 3, 5, 11] comes back as [2, 2, 5, 11], off by 1 in its first two
    samples. *)
Lemma swtDenoise_threshold_0_not_identity :
  swtDenoise Haar.pywt [1; 3; 5; 11]%Q "db" 1 1 0%Q = Ok [2; 2; 5; 11]%Q
  /\ within_tolerance (1 # 2) [2; 2; 5; 11]%Q [1; 3; 5; 11]%Q = false.
Proof. split; vm_compute; reflexivity. Qed.

(** C3, amended.  With threshold 0 the gate zeroes every coefficient it
    visits, whatever its value: at level 1 the result is the inverse
    transform of the approximation and of a detail sequence whose entries
    before the last are all 0, and at any other level it is the multi-level
    inverse transform of the coefficient list whose entry 1 has all its
    entries before the last set to 0. *)
Theorem swtDenoise_threshold_0_zeroes_details (pywt : PyWavelets) (signal : list Q)
    (waveletChoose : string) (orderChoose levelChoose : Z) (wv : string) :
  pywt_Wavelet pywt (waveletChoose +:+ str orderChoose) = Ok wv ->
  (forall cApproximate cDetailed,
     levelChoose = 1 ->
     pywt_dwt pywt signal (waveletChoose +:+ str orderChoose)
     = Ok (cApproximate, cDetailed) ->
     exists cDetailed',
       swtDenoise pywt signal waveletChoose orderChoose levelChoose 0
       = pywt_idwt pywt cApproximate cDetailed'
                   (waveletChoose +:+ str orderChoose) "constant"
       /\ length cDetailed' = length cDetailed
       /\ forall k, (S k < length cDetailed)%nat -> cDetailed' !! k = Some 0%Q)
  /\
  (forall coeffs cDetailed,
     levelChoose <> 1 ->
     pywt_wavedec pywt signal (waveletChoose +:+ str orderChoose) levelChoose = Ok coeffs ->
     coeffs !! 1%nat = Some cDetailed ->
     exists cDetailed',
       swtDenoise pywt signal waveletChoose orderChoose levelChoose 0
       = pywt_waverec pywt (<[1%nat := cDetailed']> coeffs) wv
       /\ length cDetailed' = length cDetailed
       /\ forall k, (S k < length cDetailed)%nat -> cDetailed' !! k = Some 0%Q).
Proof.
  intros Hwv.
  assert (Hzero : forall cD k, (S k < length cD)%nat -> threshold_loop cD 0 !! k = Some 0%Q).
  { intros cD k Hk.
    destruct (lookup_lt_is_Some_2 cD k) as [c Hc]; [lia|].
    rewrite (threshold_loop_gated 0 cD k c Hk Hc). by rewrite hard_gate_zero_threshold. }
  split.
  - intros cA cD -> Hdwt. exists (threshold_loop cD 0).
    split; [by eapply swtDenoise_level_1|].
    split; [apply threshold_loop_length | apply Hzero].
  - intros coeffs cD Hlevel Hdec Hc. exists (threshold_loop cD 0).
    split; [by apply swtDenoise_multilevel|].
    split; [apply threshold_loop_length | apply Hzero].
Qed.

Lemma swtDenoise_threshold_0_zeroes_details_witness :
  (exists cDetailed',
     swtDenoise Haar.pywt [1; 3; 5; 11]%Q "db" 1 1 0
     = pywt_idwt Haar.pywt [2; 8]%Q cDetailed' ("db" +:+ str 1) "constant"
     /\ length cDetailed' = 2%nat
     /\ cDetailed' !! 0%nat = Some 0%Q)
  /\
  (exists cDetailed',
     swtDenoise Haar.pywt [1; 3; 5; 11; 2; 4; 6; 20]%Q "db" 1 2 0
     = pywt_waverec Haar.pywt
         (<[1%nat := cDetailed']> [[5; 8]; [-3; -5]; [-1; -3; -1; -7]]%Q) "db1"
     /\ length cDetailed' = 2%nat
     /\ cDetailed' !! 0%nat = Some 0%Q).
Proof.
  split.
  - destruct (swtDenoise_threshold_0_zeroes_details Haar.pywt [1; 3; 5; 11]%Q "db" 1 1 "db1")
      as [Hone _]; [vm_compute; reflexivity|].
    destruct (Hone [2; 8]%Q [-1; -3]%Q) as (cD' & Hrun & Hlen & Hz);
      [reflexivity | vm_compute; reflexivity |].
    exists cD'. split; [exact Hrun|]. split; [exact Hlen|]. apply Hz. simpl. lia.
  - destruct (swtDenoise_threshold_0_zeroes_details Haar.pywt
                [1; 3; 5; 11; 2; 4; 6; 20]%Q "db" 1 2 "db1")
      as [_ Hmulti]; [vm_compute; reflexivity|].
    destruct (Hmulti [[5; 8]; [-3; -5]; [-1; -3; -1; -7]]%Q [-3; -5]%Q)
      as (cD' & Hrun & Hlen & Hz); [lia | vm_compute; reflexivity | reflexivity |].
    exists cD'. split; [exact Hrun|]. split; [exact Hlen|]. apply Hz. simpl. lia.
Defined.




(** ** [calculateSTDev_SNR] *)

Lemma load_global_signal : load_global "signal" = Raise (NameError "signal").
Proof. vm_compute. reflexivity. Qed.

(** C9.  [calculateSTDev_SNR] never reaches its [return]: after the mean and
    the standard deviation it evaluates [signal[peaks]], and [signal] is no
    parameter, no local and no name of the module, so the call ends in
    [NameError]; for an array or an axis that NumPy refuses it ends earlier,
    in that error.  On a matrix with rows of one length and axis 0 or 1 the
    exception is the [NameError]. *)
Theorem calculateSTDev_SNR_never_returns `{Sqrt} (arr : list (list Q)) (axis ddof : Z) :
  (exists e, calculateSTDev_SNR arr axis ddof = Raise e)
  /\ (homogeneous arr = true -> arr <> [] -> axis = 0 \/ axis = 1 ->
      calculateSTDev_SNR arr axis ddof = Raise (NameError "signal")).
Proof.
  unfold calculateSTDev_SNR, np_asanyarray, ndarray_mean, ndarray_std.
  rewrite load_global_signal. split.
  - destruct (homogeneous arr); cbn [Py.bind]; [|eauto].
    destruct (lanes arr axis); cbn [Py.bind]; eauto.
  - intros -> Hne Haxis. cbn [Py.bind].
    destruct arr as [|row rows]; [done|].
    destruct Haxis as [-> | ->]; reflexivity.
Qed.

Lemma calculateSTDev_SNR_never_returns_witness :
  @calculateSTDev_SNR Concrete.Qsqrt [[1; 2]; [3; 4]]%Q 0 0 = Raise (NameError "signal").
Proof.
  apply (@calculateSTDev_SNR_never_returns Concrete.Qsqrt [[1; 2]; [3; 4]]%Q 0 0).
  - reflexivity.
  - discriminate.
  - left. reflexivity.
Defined.

(** ** [calculate_heart_rate] *)

(** C5.  With at most one peak [calculate_heart_rate] returns the bare int
    0 of its first [return], not the pair that its last [return] builds. *)
Theorem calculate_heart_rate_few_peaks (r_peak_indices : list Z) (sampling_rate : Z) :
  (length r_peak_indices <= 1)%nat ->
  calculate_heart_rate r_peak_indices sampling_rate = RetInt 0
  /\ forall heart_rate rr_intervals,
       calculate_heart_rate r_peak_indices sampling_rate <> RetTuple heart_rate rr_intervals.
Proof.
  intros Hlen. unfold calculate_heart_rate.
  destruct (Nat.leb_spec (length r_peak_indices) 1) as [_|Hgt]; [|lia].
  split; [reflexivity | discriminate].
Qed.

Lemma calculate_heart_rate_few_peaks_witness :
  calculate_heart_rate [] 1000 = RetInt 0
  /\ calculate_heart_rate [412] 1000 = RetInt 0
  /\ calculate_heart_rate [] 1000 <> RetTuple (Fin 0) [].
Proof.
  destruct (calculate_heart_rate_few_peaks [] 1000) as [Hnone Hpair]; [simpl; lia|].
  destruct (calculate_heart_rate_few_peaks [412] 1000) as [Hone _]; [simpl; lia|].
  split; [exact Hnone|]. split; [exact Hone|]. apply Hpair.
Defined.

(** ** [analyze_rhythm] *)








(** ** [analyze_st_segment] *)

Lemma st_status_cases (amplitudes : list npfloat) :
  st_status amplitudes = "Normal" \/ st_status amplitudes = "Abnormal".
Proof.
  induction amplitudes as [|a rest IH]; simpl; [by left|].
  destruct (np_gt (np_abs a) (Fin (1 # 10))); [by right | exact IH].
Qed.

(** C10.  With no R-peak there is no TP segment and no ST segment: the
    pooled baseline is the mean of nothing ([NaN], not an exception), the
    list of ST amplitudes is empty, the loop body never runs, and the result
    is "Normal". *)
Theorem analyze_st_segment_no_peaks (ecg_signal : list Q) (sampling_rate : Z) :
  tp_segments ecg_signal [] sampling_rate = []
  /\ np_mean_rows (tp_segments ecg_signal [] sampling_rate) = Ok NaN
  /\ st_amplitudes NaN (st_segments ecg_signal [] sampling_rate) = []
  /\ analyze_st_segment ecg_signal [] sampling_rate = Ok "Normal".
Proof. repeat split. Qed.

(** C8, as stated, fails.  In [step_signal] at 100 Hz the peak at index 50
    has its ST window, samples 70 to 77, beyond the 60 samples.  It is not
    set aside: its TP segment enters the pooled baseline and turns the
    verdict on the peak at index 10 to "Abnormal", where that peak alone
    gives "Normal"; and the call returns, no exception is raised. *)
Lemma analyze_st_segment_keeps_boundary_peak :
  windows_in_bounds Concrete.step_signal 100 50 = false
  /\ windows_in_bounds Concrete.step_signal 100 10 = true
  /\ st_segments Concrete.step_signal [50] 100 = [[]]
  /\ analyze_st_segment Concrete.step_signal [10; 50] 100 = Ok "Abnormal"
  /\ analyze_st_segment Concrete.step_signal [10] 100 = Ok "Normal".
Proof. repeat split; vm_compute; reflexivity. Qed.

Lemma rounded_st_status_abnormal (K : Rounded.kernel) (st_baseline : npfloat)
    (st_means : list npfloat) :
  Rounded.st_status K st_baseline st_means = "Abnormal"
  <-> exists m, m ∈ st_means /\ Rounded.above_limit K m st_baseline = true.
Proof.
  induction st_means as [|m rest IH]; simpl.
  - split; [intros Hno; discriminate Hno|]. by intros (m & ?%elem_of_nil & _).
  - destruct (Rounded.above_limit K m st_baseline) eqn:Hm.
    + split; [|done]. intros _. exists m. split; [apply list_elem_of_here | done].
    + rewrite IH. split.
      * intros (m' & Hin & Hm'). exists m'. split; [by apply list_elem_of_further | done].
      * intros (m' & [-> | Hin]%elem_of_cons & Hm'); [congruence|]. by exists m'.
Qed.

Lemma rounded_st_status_cases (K : Rounded.kernel) (st_baseline : npfloat)
    (st_means : list npfloat) :
  Rounded.st_status K st_baseline st_means = "Normal"
  <-> Rounded.st_status K st_baseline st_means <> "Abnormal".
Proof.
  induction st_means as [|m rest IH]; simpl; [done|].
  by destruct (Rounded.above_limit K m st_baseline).
Qed.

Lemma st_status_exact_kernel (st_baseline : npfloat) (segments : list (list Q)) :
  st_status (st_amplitudes st_baseline segments)
  = Rounded.st_status Rounded.exact st_baseline (map np_mean segments).
Proof.
  induction segments as [|segment rest IH]; [done|].
  cbn [st_amplitudes map st_status Rounded.st_status].
  fold (st_amplitudes st_baseline rest). by rewrite IH.
Qed.

(** C8, amended.  [analyze_st_segment] does not look at the signal bounds
    and has no error for a window that leaves them.  Whatever [np.mean] and
    the comparison round to: every peak, also one whose window leaves the
    signal, has its TP segment and its ST segment, each a stretch of the
    signal cut by slicing (shorter than asked, or empty, where the window
    leaves the signal).  The call ends in a [ValueError] exactly when the
    TP segments differ in length; it returns "Abnormal" exactly when they
    do not and some peak's ST mean is above the limit against the baseline
    pooled from the TP segments of all the peaks; it returns "Normal"
    exactly when they do not and no peak's ST mean is.  With exact means
    the function is [analyze_st_segment] as embedded above. *)
Theorem analyze_st_segment_no_bounds_check (K : Rounded.kernel) (ecg_signal : list Q)
    (r_peak_indices : list Z) (sampling_rate : Z) :
  let tp := fun r_peak =>
    slice ecg_signal (r_peak - st_segment_duration sampling_rate) r_peak in
  let st := fun r_peak =>
    slice ecg_signal (r_peak + t_segment_start sampling_rate)
          (r_peak + t_segment_start sampling_rate + st_segment_duration sampling_rate) in
  let st_baseline := Rounded.mean K (concat (map tp r_peak_indices)) in
  let result := Rounded.analyze_st_segment K ecg_signal r_peak_indices sampling_rate in
  tp_segments ecg_signal r_peak_indices sampling_rate = map tp r_peak_indices
  /\ st_segments ecg_signal r_peak_indices sampling_rate = map st r_peak_indices
  /\ (forall r_peak, exists i n j m,
        tp r_peak = take n (drop i ecg_signal) /\ st r_peak = take m (drop j ecg_signal))
  /\ (result = Raise ValueError <-> homogeneous (map tp r_peak_indices) = false)
  /\ (result = Ok "Abnormal"
      <-> homogeneous (map tp r_peak_indices) = true
          /\ exists r_peak, r_peak ∈ r_peak_indices
               /\ Rounded.above_limit K (Rounded.mean K (st r_peak)) st_baseline = true)
  /\ (result = Ok "Normal"
      <-> homogeneous (map tp r_peak_indices) = true
          /\ forall r_peak, r_peak ∈ r_peak_indices ->
               Rounded.above_limit K (Rounded.mean K (st r_peak)) st_baseline = false)
  /\ analyze_st_segment ecg_signal r_peak_indices sampling_rate
     = Rounded.analyze_st_segment Rounded.exact ecg_signal r_peak_indices sampling_rate.
Proof.
  intros tp st st_baseline result.
  assert (Habn : Rounded.st_status K st_baseline (map (Rounded.mean K) (map st r_peak_indices))
                 = "Abnormal"
                 <-> exists r_peak, r_peak ∈ r_peak_indices
                      /\ Rounded.above_limit K (Rounded.mean K (st r_peak)) st_baseline = true).
  { rewrite rounded_st_status_abnormal. split.
    - intros (m & Hin & Hm).
      apply list_elem_of_fmap in Hin as (segment & -> & Hin).
      apply list_elem_of_fmap in Hin as (r_peak & -> & Hin). by exists r_peak.
    - intros (r_peak & Hin & Hm). exists (Rounded.mean K (st r_peak)).
      split; [|done]. by do 2 apply list_elem_of_fmap_2. }
  split; [done|]. split; [done|]. split.
  { intros r_peak. subst tp st. unfold slice. eauto 10. }
  assert (Hresult : result
    = if homogeneous (map tp r_peak_indices)
      then Ok (Rounded.st_status K st_baseline
                 (map (Rounded.mean K) (map st r_peak_indices)))
      else Raise ValueError).
  { subst result. unfold Rounded.analyze_st_segment, np_asanyarray.
    change (tp_segments ecg_signal r_peak_indices sampling_rate) with (map tp r_peak_indices).
    by destruct (homogeneous (map tp r_peak_indices)). }
  rewrite Hresult. clear Hresult.
  split; [|split; [|split]].
  - by destruct (homogeneous (map tp r_peak_indices)).
  - destruct (homogeneous (map tp r_peak_indices)).
    + rewrite <- Habn. split.
      * intros Heq. injection Heq as Heq. done.
      * intros [_ Heq]. by rewrite Heq.
    + split; [intros Hno; discriminate Hno | intros [Hno _]; discriminate Hno].
  - destruct (homogeneous (map tp r_peak_indices)).
    + split.
      * intros Heq. injection Heq as Heq. split; [done|]. intros r_peak Hin.
        apply rounded_st_status_cases in Heq.
        destruct (Rounded.above_limit K (Rounded.mean K (st r_peak)) st_baseline) eqn:Hr;
          [|done].
        exfalso. apply Heq, Habn. by exists r_peak.
      * intros [_ Hall]. f_equal. apply rounded_st_status_cases. rewrite Habn.
        intros (r_peak & Hin & Hr). rewrite (Hall r_peak Hin) in Hr. discriminate Hr.
    + split; [intros Hno; discriminate Hno | intros [Hno _]; discriminate Hno].
  - unfold analyze_st_segment, Rounded.analyze_st_segment, np_mean_rows.
    destruct (np_asanyarray (tp_segments ecg_signal r_peak_indices sampling_rate));
      cbn [Py.bind]; [|done].
    f_equal. apply st_status_exact_kernel.
Qed.

(** In [step_signal] at 100 Hz with peaks at 10 and 50, the second with its
    ST window beyond the signal: the answer "Abnormal" comes with a peak
    whose ST mean is above the limit against the baseline pooled from the
    TP segments of both peaks. *)
Lemma analyze_st_segment_no_bounds_check_witness :
  exists r_peak,
    r_peak ∈ [10; 50]
    /\ Rounded.above_limit Rounded.exact
         (Rounded.mean Rounded.exact
            (slice Concrete.step_signal (r_peak + t_segment_start 100)
                   (r_peak + t_segment_start 100 + st_segment_duration 100)))
         (Rounded.mean Rounded.exact
            (concat (tp_segments Concrete.step_signal [10; 50] 100)))
       = true.
Proof.
  pose proof (analyze_st_segment_no_bounds_check Rounded.exact Concrete.step_signal
                [10; 50] 100) as Hall.
  cbv zeta in Hall. destruct Hall as (_ & _ & _ & _ & Habnormal & _).
  destruct (proj1 Habnormal) as [_ Hpeak]; [vm_compute; reflexivity | exact Hpeak].
Defined.

(** ** [analyze_pr_interval] *)

Section PrInterval.

Context `{SciPy}.
Variable globals : gmap string PyObject.

Variable ecg_data : PyObject.
Hypothesis ecg_data_bound : globals !! "ecg_data" = Some ecg_data.

Lemma p_peak_loop_returns (r_peaks : list PyNum) (p_peak_indices : list PyNum) :
  (forall r_peak, r_peak ∈ r_peaks -> exists window, p_window ecg_data r_peak = Ok window) ->
  exists found,
    for_loop (p_peak_body globals 40) r_peaks p_peak_indices = Ok found
    /\ ((forall r_peak window, r_peak ∈ r_peaks -> p_window ecg_data r_peak = Ok window ->
           find_peaks window = []) ->
        found = p_peak_indices).
Proof.
  revert p_peak_indices.
  induction r_peaks as [|r_peak rest IH]; intros acc Hwin; [by exists acc|].
  cbn [for_loop]. unfold p_peak_body at 1, load_name.
  rewrite ecg_data_bound. cbn [Py.bind].
  destruct (Hwin r_peak) as (window & Hslice); [apply list_elem_of_here|].
  unfold p_window in Hslice. rewrite Hslice. cbn [Py.bind].
  assert (Hrest : forall r, r ∈ rest -> exists w, p_window ecg_data r = Ok w).
  { intros r Hin. apply Hwin. by apply list_elem_of_further. }
  destruct (find_peaks window) as [|first others] eqn:Hpeaks.
  - destruct (IH acc Hrest) as (found & Hrun & Hsame). exists found.
    split; [exact Hrun|]. intros Hnone. apply Hsame.
    intros r w Hin. apply Hnone. by apply list_elem_of_further.
  - destruct (IH (acc ++ [num_add_int (p_search_start 40 r_peak) first]) Hrest)
      as (found & Hrun & _).
    exists found. split; [exact Hrun|]. intros Hnone.
    rewrite (Hnone r_peak window) in Hpeaks; [discriminate Hpeaks| |exact Hslice].
    apply list_elem_of_here.
Qed.

Lemma qrs_peak_loop_returns (r_peaks : list PyNum) (locals : option (PyNum * list Z)) :
  (forall r_peak, r_peak ∈ r_peaks -> exists window, qrs_window ecg_data r_peak = Ok window) ->
  r_peaks <> [] \/ is_Some locals ->
  exists search_start qrs_peak,
    for_loop (qrs_peak_body globals 100) r_peaks locals = Ok (Some (search_start, qrs_peak))
    /\ ((forall r_peak window, r_peak ∈ r_peaks -> qrs_window ecg_data r_peak = Ok window ->
           find_peaks window = []) ->
        (forall bound, locals = Some bound -> bound.2 = []) ->
        qrs_peak = []).
Proof.
  revert locals. induction r_peaks as [|r_peak rest IH]; intros locals Hwin Hsome.
  - destruct Hsome as [Hno | [[start qrs] ->]]; [done|].
    exists start, qrs. split; [done|]. intros _ Hbound. by apply (Hbound (start, qrs)).
  - cbn [for_loop]. unfold qrs_peak_body at 1, load_name.
    rewrite ecg_data_bound. cbn [Py.bind].
    destruct (Hwin r_peak) as (window & Hslice); [apply list_elem_of_here|].
    unfold qrs_window in Hslice. rewrite Hslice. cbn [Py.bind].
    destruct (IH (Some (r_peak, find_peaks window))) as (start & qrs & Hrun & Hnil).
    + intros r Hin. apply Hwin. by apply list_elem_of_further.
    + right. by eexists.
    + exists start, qrs. split; [exact Hrun|]. intros Hnone _. apply Hnil.
      * intros r w Hin. apply Hnone. by apply list_elem_of_further.
      * intros bound [= <-]. simpl. apply (Hnone r_peak); [apply list_elem_of_here|].
        exact Hslice.
Qed.

End PrInterval.

(** The exceptions of three calls: [r_peak_indices] not bound; bound to an
    empty sequence; bound to one peak with [ecg_data] an array, which
    refuses the float bound of the QRS window. *)
Example analyze_pr_interval_exceptions :
  @analyze_pr_interval Concrete.local_maxima ∅ [8 # 10]%Q 1000 (2 # 10)
  = Raise (NameError "r_peak_indices")
  /\ @analyze_pr_interval Concrete.local_maxima
       (<["ecg_data" := ObjFloats Concrete.step_signal]>
          {["r_peak_indices" := ObjInts []]}) [] 1000 (2 # 10)
     = Raise (UnboundLocalError "qrs_peak")
  /\ @analyze_pr_interval Concrete.local_maxima
       (<["ecg_data" := ObjFloats (replicate 60 0%Q)]>
          {["r_peak_indices" := ObjInts [30]]}) [] 1000 (2 # 10)
     = Raise TypeError.
Proof. repeat split; vm_compute; reflexivity. Qed.

(** C7 does not hold of the code, which has no [InsufficientDataError].
    In the module as imported every call ends in the [NameError] of reading
    [r_peak_indices], whatever the arguments.  With [r_peak_indices] and
    [ecg_data] bound in the module, at least one R-peak and every window
    sliced without error: when no R-peak has a P-peak in its window, or
    none has a QRS-peak in its window, there is no matched pair, the mean
    of no PR interval is [NaN], no exception is raised and the call returns
    the classification "Normal". *)
Theorem analyze_pr_interval_undefined_mean `{SciPy} (globals : gmap string PyObject)
    (r_peak_indices ecg_data : PyObject) (r_peaks : list PyNum)
    (rr_intervals : list Q) (sampling_rate : Z) (threshold : Q) :
  analyze_pr_interval ∅ rr_intervals sampling_rate threshold
  = Raise (NameError "r_peak_indices")
  /\ (globals !! "r_peak_indices" = Some r_peak_indices ->
      globals !! "ecg_data" = Some ecg_data ->
      iterate r_peak_indices = Ok r_peaks ->
      r_peaks <> [] ->
      (forall r_peak, r_peak ∈ r_peaks ->
         exists p_samples qrs_samples,
           p_window ecg_data r_peak = Ok p_samples
           /\ qrs_window ecg_data r_peak = Ok qrs_samples) ->
      (forall r_peak p_samples, r_peak ∈ r_peaks ->
         p_window ecg_data r_peak = Ok p_samples -> find_peaks p_samples = [])
      \/ (forall r_peak qrs_samples, r_peak ∈ r_peaks ->
            qrs_window ecg_data r_peak = Ok qrs_samples -> find_peaks qrs_samples = []) ->
      np_mean_f [] = NaN
      /\ analyze_pr_interval globals rr_intervals sampling_rate threshold = Ok "Normal").
Proof.
  split; [reflexivity|].
  intros Hpeaks Hdata Hiter Hsome Hwin Hnone. split; [reflexivity|].
  unfold analyze_pr_interval, load_name. rewrite Hpeaks. cbn [Py.bind].
  rewrite Hiter. cbn [Py.bind].
  destruct (p_peak_loop_returns globals ecg_data Hdata r_peaks [])
    as (p_peak_indices & -> & Hp).
  { intros r Hin. destruct (Hwin r Hin) as (w & _ & Hw & _). by exists w. }
  cbn [Py.bind].
  destruct (qrs_peak_loop_returns globals ecg_data Hdata r_peaks None)
    as (search_start & qrs_peak & -> & Hq).
  { intros r Hin. destruct (Hwin r Hin) as (_ & w & _ & Hw). by exists w. }
  { by left. }
  cbn [Py.bind].
  destruct Hnone as [Hnone | Hnone].
  - rewrite (Hp Hnone). reflexivity.
  - rewrite (Hq Hnone) by done. by destruct p_peak_indices.
Qed.

(** One R-peak on a flat signal held in a Series with a float index: the
    windows are sliced, neither has a peak, and the call returns "Normal". *)
Lemma analyze_pr_interval_undefined_mean_witness :
  @analyze_pr_interval Concrete.local_maxima
    (<["ecg_data" := Concrete.float_indexed_series (replicate 60 0%Q)]>
       {["r_peak_indices" := ObjInts [30]]}) [8 # 10]%Q 1000 (2 # 10)
  = Ok "Normal".
Proof.
  refine (proj2 (proj2 (@analyze_pr_interval_undefined_mean Concrete.local_maxima
            (<["ecg_data" := Concrete.float_indexed_series (replicate 60 0%Q)]>
               {["r_peak_indices" := ObjInts [30]]})
            (ObjInts [30]) (Concrete.float_indexed_series (replicate 60 0%Q))
            [PInt 30] [8 # 10]%Q 1000 (2 # 10)) _ _ _ _ _ _)).
  - reflexivity.
  - reflexivity.
  - reflexivity.
  - discriminate.
  - intros r_peak ->%list_elem_of_singleton. eexists _, _. split; reflexivity.
  - left. intros r_peak p_samples ->%list_elem_of_singleton [= <-].
    vm_compute. reflexivity.
Defined.

(** ** The functions on sample inputs *)

Example str_order : str 4 = "4" /\ "db" +:+ str 4 = "db4".
Proof. split; vm_compute; reflexivity. Qed.

Example threshold_loop_sample :
  threshold_loop [2; 3; 1 # 2; 5]%Q 1 = [0; 0; 1 # 2; 5]%Q.
Proof. vm_compute. reflexivity. Qed.

Example slice_samples :
  slice [10; 11; 12; 13; 14] 1 3 = [11; 12]
  /\ slice [10; 11; 12; 13; 14] 3 9 = [13; 14]
  /\ slice [10; 11; 12; 13; 14] (-2) 5 = [13; 14]
  /\ slice [10; 11; 12; 13; 14] (-70) 2 = [10; 11]
  /\ slice [10; 11; 12; 13; 14] 7 9 = [].
Proof. repeat split. Qed.

Example haar_two_levels :
  Haar.wavedec [1; 3; 5; 11; 2; 4; 6; 20]%Q "db1" 2
  = Ok [[5; 8]; [-3; -5]; [-1; -3; -1; -7]]%Q
  /\ Haar.waverec [[5; 8]; [-3; -5]; [-1; -3; -1; -7]]%Q "db1"
     = Ok [1; 3; 5; 11; 2; 4; 6; 20]%Q.
Proof. split; vm_compute; reflexivity. Qed.

Example heart_rate_60_bpm :
  exists heart_rate rr_intervals,
    calculate_heart_rate [100; 1100; 2100; 3100] 1000 = RetTuple heart_rate rr_intervals
    /\ np_eq heart_rate (Fin 60) = true
    /\ length rr_intervals = 3%nat.
Proof. eexists _, _. split; [reflexivity|]. split; vm_compute; reflexivity. Qed.

Example rhythm_samples :
  @analyze_rhythm Concrete.Qsqrt [8 # 10; 8 # 10; 8 # 10]%Q (15 # 100) = "Regular"
  /\ @analyze_rhythm Concrete.Qsqrt [4 # 10; 12 # 10; 4 # 10; 12 # 10]%Q (15 # 100)
     = "Irregular".
Proof. split; vm_compute; reflexivity. Qed.

Example st_segment_in_bounds :
  st_segment_duration 1000 = 80 /\ t_segment_start 1000 = 200
  /\ analyze_st_segment Concrete.step_signal [10] 100 = Ok "Normal"
  /\ analyze_st_segment Concrete.step_signal [22] 100 = Ok "Abnormal".
Proof. repeat split; vm_compute; reflexivity. Qed.

Example local_maxima_sample :
  Concrete.local_maxima [0; 1; 0; 2; 2; 2; 1; 3; 3]%Q = [1; 4].
Proof. vm_compute. reflexivity. Qed.

Example t_wave_window_samples :
  Float64.int_mul Float64.lit_0_35 180 = 62
  /\ Float64.int_mul Float64.lit_0_35 20 = 7
  /\ Float64.int_mul Float64.lit_0_25 180 = 45
  /\ Float64.int_mul Float64.lit_0_08 125 = 10
  /\ t_wave_window (map inject_Z [0; 1; 2; 3; 4; 5; 6; 7; 8; 9]) = [3; 4]%Q.
Proof. repeat split; vm_compute; reflexivity. Qed.

(** * Further properties *)

(** ** The gate, coefficient by coefficient *)

Lemma hard_gate_idempotent (threshold c : Q) :
  hard_gate threshold (hard_gate threshold c) = hard_gate threshold c.
Proof.
  unfold hard_gate. destruct (Qle_bool threshold (Qabs c)) eqn:E.
  - by destruct (Qle_bool threshold (Qabs 0)).
  - by rewrite E.
Qed.

Lemma hard_gate_below (threshold c : Q) :
  (Qabs c < threshold)%Q -> hard_gate threshold c = c.
Proof.
  intros Hlt. unfold hard_gate.
  destruct (Qle_bool threshold (Qabs c)) eqn:E; [|done].
  apply Qle_bool_iff in E. by apply Qle_not_lt in E.
Qed.

Lemma threshold_loop_tail (setThreshold : Q) (cDetailed : list Q) (k : nat) :
  (length cDetailed <= S k)%nat ->
  threshold_loop cDetailed setThreshold !! k = cDetailed !! k.
Proof.
  intros Hk. rewrite threshold_loop_closed.
  destruct (decide (k < length cDetailed)%nat) as [Hin|Hout].
  - rewrite lookup_app_r by (rewrite length_map, length_take; lia).
    rewrite length_map, length_take, lookup_drop. f_equal. lia.
  - rewrite !lookup_ge_None_2; [done | lia |].
    rewrite length_app, length_map, length_take, length_drop. lia.
Qed.

Lemma threshold_loop_unchanged (setThreshold : Q) (cDetailed : list Q) :
  (forall k c, (S k < length cDetailed)%nat -> cDetailed !! k = Some c ->
     (Qabs c < setThreshold)%Q) ->
  threshold_loop cDetailed setThreshold = cDetailed.
Proof.
  intros Hbelow. apply list_eq. intros k.
  destruct (decide (S k < length cDetailed)%nat) as [Hk|Hk].
  - destruct (lookup_lt_is_Some_2 cDetailed k) as [c Hc]; [lia|].
    rewrite (threshold_loop_gated _ _ _ _ Hk Hc), Hc.
    f_equal. apply hard_gate_below. by eapply Hbelow.
  - apply threshold_loop_tail. lia.
Qed.

(** X1.  The loop is a hard gate and no shrinkage: the array keeps its
    length, and what stands at an index afterwards is the coefficient that
    stood there or 0, and 0 only for a coefficient whose absolute value
    reaches the threshold; a coefficient strictly below the threshold is
    kept as it is, at every index. *)
Theorem threshold_loop_keeps_or_zeroes (setThreshold : Q) (cDetailed : list Q)
    (k : nat) (c : Q) :
  cDetailed !! k = Some c ->
  length (threshold_loop cDetailed setThreshold) = length cDetailed
  /\ (threshold_loop cDetailed setThreshold !! k = Some c
      \/ (threshold_loop cDetailed setThreshold !! k = Some 0%Q
          /\ (setThreshold <= Qabs c)%Q))
  /\ ((Qabs c < setThreshold)%Q -> threshold_loop cDetailed setThreshold !! k = Some c).
Proof.
  intros Hc. split; [apply threshold_loop_length|].
  destruct (decide (S k < length cDetailed)%nat) as [Hk|Hk].
  - rewrite (threshold_loop_gated _ _ _ _ Hk Hc). split.
    + unfold hard_gate. destruct (Qle_bool setThreshold (Qabs c)) eqn:E; [|by left].
      right. split; [done|]. by apply Qle_bool_iff.
    + intros Hlt. by rewrite hard_gate_below.
  - rewrite threshold_loop_tail by lia. split; [by left | done].
Qed.

Lemma threshold_loop_keeps_or_zeroes_witness :
  length (threshold_loop [2; 1 # 2; 5]%Q 1) = 3%nat
  /\ (threshold_loop [2; 1 # 2; 5]%Q 1 !! 1%nat = Some (1 # 2)%Q
      \/ (threshold_loop [2; 1 # 2; 5]%Q 1 !! 1%nat = Some 0%Q
          /\ (1 <= Qabs (1 # 2))%Q))
  /\ ((Qabs (1 # 2) < 1)%Q -> threshold_loop [2; 1 # 2; 5]%Q 1 !! 1%nat = Some (1 # 2)%Q).
Proof. apply (threshold_loop_keeps_or_zeroes 1 [2; 1 # 2; 5]%Q 1 (1 # 2)%Q). reflexivity. Defined.

(** X2.  Thresholding twice with one threshold changes nothing more: the
    loop is idempotent. *)
Theorem threshold_loop_idempotent (setThreshold : Q) (cDetailed : list Q) :
  threshold_loop (threshold_loop cDetailed setThreshold) setThreshold
  = threshold_loop cDetailed setThreshold.
Proof.
  destruct (decide (cDetailed = [])) as [->|Hne]; [done|].
  destruct (exists_last Hne) as (init & c & ->).
  rewrite !threshold_loop_snoc. f_equal.
  rewrite <- list_fmap_compose. apply list_fmap_ext.
  intros i x _. apply hard_gate_idempotent.
Qed.

(** X3.  When every detail coefficient before the last is strictly below
    the threshold, nothing is removed: at level 1 [swtDenoise] returns the
    plain inverse transform of what the transform gave. *)
Theorem swtDenoise_level1_high_threshold (pywt : PyWavelets) (signal : list Q)
    (waveletChoose : string) (orderChoose : Z) (setThreshold : Q)
    (cApproximate cDetailed : list Q) (wv : string) :
  pywt_dwt pywt signal (waveletChoose +:+ str orderChoose) = Ok (cApproximate, cDetailed) ->
  pywt_Wavelet pywt (waveletChoose +:+ str orderChoose) = Ok wv ->
  (forall k c, (S k < length cDetailed)%nat -> cDetailed !! k = Some c ->
     (Qabs c < setThreshold)%Q) ->
  swtDenoise pywt signal waveletChoose orderChoose 1 setThreshold
  = pywt_idwt pywt cApproximate cDetailed (waveletChoose +:+ str orderChoose) "constant".
Proof.
  intros Hdwt Hwv Hbelow.
  rewrite (swtDenoise_level_1 _ _ _ _ _ _ _ _ Hdwt Hwv).
  by rewrite threshold_loop_unchanged.
Qed.

(** With the Haar filter bank and threshold 4 the signal [1, 3, 5, 11]
    comes back as it went in. *)
Lemma swtDenoise_level1_high_threshold_witness :
  swtDenoise Haar.pywt [1; 3; 5; 11]%Q "db" 1 1 4
  = pywt_idwt Haar.pywt [2; 8]%Q [-1; -3]%Q ("db" +:+ str 1) "constant"
  /\ pywt_idwt Haar.pywt [2; 8]%Q [-1; -3]%Q "db1" "constant" = Ok [1; 3; 5; 11]%Q.
Proof.
  split; [|vm_compute; reflexivity].
  apply (swtDenoise_level1_high_threshold Haar.pywt [1; 3; 5; 11]%Q "db" 1 4
           [2; 8]%Q [-1; -3]%Q "db1"); try (vm_compute; reflexivity).
  intros k c Hk Hc. destruct k as [|k]; [|simpl in Hk; lia].
  injection Hc as <-. reflexivity.
Defined.

(** X4.  For a level other than 1, with every coefficient of entry 1 before
    its last strictly below the threshold, the coefficient list goes to the
    multi-level inverse transform exactly as the decomposition returned it. *)
Theorem swtDenoise_multilevel_high_threshold (pywt : PyWavelets) (signal : list Q)
    (waveletChoose : string) (orderChoose levelChoose : Z) (setThreshold : Q)
    (wv : string) (coeffs : list (list Q)) (cDetailed : list Q) :
  levelChoose <> 1 ->
  pywt_Wavelet pywt (waveletChoose +:+ str orderChoose) = Ok wv ->
  pywt_wavedec pywt signal (waveletChoose +:+ str orderChoose) levelChoose = Ok coeffs ->
  coeffs !! 1%nat = Some cDetailed ->
  (forall k c, (S k < length cDetailed)%nat -> cDetailed !! k = Some c ->
     (Qabs c < setThreshold)%Q) ->
  swtDenoise pywt signal waveletChoose orderChoose levelChoose setThreshold
  = pywt_waverec pywt coeffs wv.
Proof.
  intros Hlevel Hwv Hdec Hc Hbelow.
  rewrite (swtDenoise_multilevel _ _ _ _ _ _ _ _ _ Hlevel Hwv Hdec Hc).
  rewrite threshold_loop_unchanged by done. by rewrite list_insert_id.
Qed.

(** A signal whose first four samples balance: the one level-2 detail that
    the loop visits is 0 whatever the scaling of the filter bank, below the
    threshold 1, and the signal comes back. *)
Lemma swtDenoise_multilevel_high_threshold_witness :
  pywt_wavedec Haar.pywt [1; 3; 3; 1; 2; 4; 6; 20]%Q "db1" 2
  = Ok [[2; 8]; [0; -5]; [-1; 1; -1; -7]]%Q
  /\ swtDenoise Haar.pywt [1; 3; 3; 1; 2; 4; 6; 20]%Q "db" 1 2 1
     = Ok [1; 3; 3; 1; 2; 4; 6; 20]%Q.
Proof.
  split; [vm_compute; reflexivity|].
  rewrite (swtDenoise_multilevel_high_threshold Haar.pywt [1; 3; 3; 1; 2; 4; 6; 20]%Q
             "db" 1 2 1 "db1" [[2; 8]; [0; -5]; [-1; 1; -1; -7]]%Q [0; -5]%Q).
  - vm_compute. reflexivity.
  - lia.
  - vm_compute. reflexivity.
  - vm_compute. reflexivity.
  - reflexivity.
  - intros k c Hk Hc. destruct k as [|k]; [|simpl in Hk; lia].
    injection Hc as <-. reflexivity.
Defined.

(** X5.  Lowering the threshold never brings a coefficient back: an index
    that holds 0 after thresholding at some threshold holds 0 after
    thresholding at any smaller one. *)
Theorem threshold_loop_antitone (low high : Q) (cDetailed : list Q) (k : nat) :
  (low <= high)%Q ->
  threshold_loop cDetailed high !! k = Some 0%Q ->
  threshold_loop cDetailed low !! k = Some 0%Q.
Proof.
  intros Hle Hzero.
  destruct (decide (S k < length cDetailed)%nat) as [Hk|Hk].
  - destruct (lookup_lt_is_Some_2 cDetailed k) as [c Hc]; [lia|].
    rewrite (threshold_loop_gated _ _ _ _ Hk Hc) in Hzero.
    rewrite (threshold_loop_gated _ _ _ _ Hk Hc). f_equal.
    injection Hzero as Hzero. unfold hard_gate in *.
    destruct (Qle_bool high (Qabs c)) eqn:E.
    + apply Qle_bool_iff in E.
      assert (Hlow : Qle_bool low (Qabs c) = true).
      { apply Qle_bool_iff. by apply Qle_trans with high. }
      by rewrite Hlow.
    + subst c. by destruct (Qle_bool low (Qabs 0)).
  - rewrite threshold_loop_tail in * by lia. done.
Qed.

Lemma threshold_loop_antitone_witness :
  threshold_loop [2; 1 # 2; 5]%Q (1 # 4) !! 0%nat = Some 0%Q.
Proof.
  apply (threshold_loop_antitone (1 # 4) 1 [2; 1 # 2; 5]%Q 0).
  - vm_compute. discriminate.
  - vm_compute. reflexivity.
Defined.

(** ** Rational arithmetic *)

Lemma Qeq_bool_false (x y : Q) : ~ (x == y)%Q -> Qeq_bool x y = false.
Proof.
  intros Hne. destruct (Qeq_bool x y) eqn:E; [|done].
  apply Qeq_bool_eq in E. contradiction.
Qed.

Lemma inject_Z_nonzero (z : Z) : z <> 0 -> ~ (inject_Z z == 0)%Q.
Proof. intros Hz Heq. unfold Qeq in Heq. simpl in Heq. lia. Qed.


(** ** [analyze_rhythm] *)

Section Rhythm.

Context `{Sqrt}.

Lemma analyze_rhythm_test (rr_intervals : list Q) (threshold : Q) :
  analyze_rhythm rr_intervals threshold = "Regular"
  <-> np_le (np_std rr_intervals 0) (Fin threshold) = true.
Proof.
  unfold analyze_rhythm.
  destruct (np_le (np_std rr_intervals 0) (Fin threshold)); split; congruence.
Qed.

Lemma analyze_rhythm_labels (rr_intervals : list Q) (threshold : Q) :
  analyze_rhythm rr_intervals threshold <> "Regular" ->
  analyze_rhythm rr_intervals threshold = "Irregular".
Proof.
  unfold analyze_rhythm.
  by destruct (np_le (np_std rr_intervals 0) (Fin threshold)).
Qed.

End Rhythm.

(** X10.  Raising the threshold never turns a regular rhythm irregular. *)
Theorem analyze_rhythm_monotone `{Sqrt} (rr_intervals : list Q) (low high : Q) :
  (low <= high)%Q ->
  analyze_rhythm rr_intervals low = "Regular" ->
  analyze_rhythm rr_intervals high = "Regular".
Proof.
  intros Hle. rewrite !analyze_rhythm_test.
  destruct (np_std rr_intervals 0) as [s| | |]; simpl; try done.
  intros Hs. apply Qle_bool_iff in Hs. apply Qle_bool_iff.
  by apply Qle_trans with low.
Qed.

Lemma analyze_rhythm_monotone_witness :
  @analyze_rhythm Concrete.Qsqrt [8 # 10; 9 # 10; 8 # 10]%Q (3 # 10) = "Regular".
Proof.
  apply (@analyze_rhythm_monotone Concrete.Qsqrt [8 # 10; 9 # 10; 8 # 10]%Q
           (15 # 100) (3 # 10)).
  - vm_compute. discriminate.
  - vm_compute. reflexivity.
Defined.

(** X11.  With a negative threshold no series is "Regular", the empty one
    and the constant ones included: a standard deviation is never negative. *)
Theorem analyze_rhythm_negative_threshold `{Sqrt} (rr_intervals : list Q) (threshold : Q) :
  (forall q, (0 <= fsqrt q)%Q) ->
  (threshold < 0)%Q ->
  analyze_rhythm rr_intervals threshold = "Irregular".
Proof.
  intros Hsqrt Hneg. apply analyze_rhythm_labels. rewrite analyze_rhythm_test.
  unfold np_std, np_sqrt.
  destruct (np_var rr_intervals 0) as [v| | |]; simpl; try done.
  destruct (Qlt_bool v 0); simpl; [done|].
  intros Hle. apply Qle_bool_iff in Hle.
  apply (Qlt_irrefl 0). apply Qle_lt_trans with threshold; [|done].
  by apply Qle_trans with (fsqrt v).
Qed.

Lemma Qsqrt_nonneg (q : Q) : (0 <= Concrete.Qsqrt q)%Q.
Proof.
  unfold Concrete.Qsqrt. rewrite Qred_correct. unfold Qle. simpl.
  rewrite Z.mul_1_r. apply Z.sqrt_nonneg.
Qed.

Lemma analyze_rhythm_negative_threshold_witness :
  @analyze_rhythm Concrete.Qsqrt [8 # 10; 8 # 10]%Q (-1 # 100) = "Irregular".
Proof.
  apply (@analyze_rhythm_negative_threshold Concrete.Qsqrt [8 # 10; 8 # 10]%Q (-1 # 100)).
  - exact Qsqrt_nonneg.
  - reflexivity.
Defined.

(** ** Slices *)

Lemma slice_bound_range (len i : Z) : 0 <= len -> 0 <= slice_bound len i <= len.
Proof. intros Hlen. unfold slice_bound. destruct (Z.ltb_spec i 0); lia. Qed.

Lemma slice_length {A : Type} (l : list A) (start stop : Z) :
  length (slice l start stop)
  = Z.to_nat (slice_bound (Z.of_nat (length l)) stop
              - slice_bound (Z.of_nat (length l)) start).
Proof.
  unfold slice. rewrite length_take, length_drop.
  pose proof (slice_bound_range (Z.of_nat (length l)) start ltac:(lia)).
  pose proof (slice_bound_range (Z.of_nat (length l)) stop ltac:(lia)).
  lia.
Qed.

Lemma slice_inside {A : Type} (l : list A) (start stop : Z) :
  0 <= start -> start <= stop -> stop <= Z.of_nat (length l) ->
  length (slice l start stop) = Z.to_nat (stop - start).
Proof.
  intros H0 Hle Hlen. rewrite slice_length. unfold slice_bound.
  destruct (Z.ltb_spec start 0), (Z.ltb_spec stop 0); lia.
Qed.

Lemma slice_same {A : Type} (l : list A) (i : Z) : slice l i i = [].
Proof. unfold slice. by rewrite Z.sub_diag. Qed.

Lemma slice_past_end {A : Type} (l : list A) (start stop : Z) :
  Z.of_nat (length l) <= start -> slice l start stop = [].
Proof.
  intros Hpast. unfold slice, slice_bound.
  destruct (Z.ltb_spec start 0); [lia|].
  rewrite drop_ge by lia. apply take_nil.
Qed.

Lemma slice_replicate {A : Type} (n : nat) (x : A) (start stop : Z) :
  exists k, slice (replicate n x) start stop = replicate k x.
Proof. unfold slice. rewrite drop_replicate, take_replicate. eauto. Qed.

(** X12.  What [calulatePSD_SNR] hands to the noise estimate is the
    denoised signal without its first five and its last five samples; of a
    signal of ten samples or fewer nothing is left, also where the stop
    index [len - 5] is negative and counts from the end. *)
Theorem psd_noise_samples_trimmed (denoised_ecg : list Q) :
  psd_noise_samples denoised_ecg = take (length denoised_ecg - 10) (drop 5 denoised_ecg)
  /\ length (psd_noise_samples denoised_ecg) = (length denoised_ecg - 10)%nat.
Proof.
  assert (Heq : psd_noise_samples denoised_ecg
                = take (length denoised_ecg - 10) (drop 5 denoised_ecg)).
  { unfold psd_noise_samples, slice, slice_bound.
    set (n := length denoised_ecg). change (5 <? 0) with false. cbv iota.
    destruct (Z.ltb_spec (Z.of_nat n - 5) 0) as [Hshort|Hlong].
    - replace (n - 10)%nat with 0%nat by lia.
      replace (Z.to_nat (Z.max 0 (Z.of_nat n - 5 + Z.of_nat n) - Z.min 5 (Z.of_nat n)))
        with 0%nat by lia.
      done.
    - destruct (decide (10 <= n)%nat) as [Hten|Hfew].
      + replace (Z.to_nat (Z.min 5 (Z.of_nat n))) with 5%nat by lia.
        f_equal. lia.
      + replace (n - 10)%nat with 0%nat by lia.
        replace (Z.to_nat (Z.min (Z.of_nat n - 5) (Z.of_nat n) - Z.min 5 (Z.of_nat n)))
          with 0%nat by lia.
        done. }
  split; [exact Heq|]. rewrite Heq, length_take, length_drop. lia.
Qed.

(** ** [analyze_st_segment] *)

Lemma homogeneous_lengths {A : Type} (rows : list (list A)) (k : nat) :
  Forall (fun row => length row = k) rows -> homogeneous rows = true.
Proof.
  intros Hrows. destruct rows as [|row rest]; [done|]. simpl.
  apply Forall_cons in Hrows as [Hrow Hrest].
  apply forallb_forall. intros row' Hin%list_elem_of_In.
  rewrite Forall_forall in Hrest. rewrite (Hrest _ Hin), Hrow.
  apply Nat.eqb_refl.
Qed.

Lemma st_status_quiet (amplitudes : list npfloat) :
  Forall (fun a => np_gt (np_abs a) (Fin (1 # 10)) = false) amplitudes ->
  st_status amplitudes = "Normal".
Proof.
  induction 1 as [|a rest Ha _ IH]; [done|]. simpl. by rewrite Ha.
Qed.

Lemma concat_nils {A B : Type} (xs : list B) : concat (map (fun _ => @nil A) xs) = [].
Proof. induction xs as [|x xs IH]; [done|]. simpl. exact IH. Qed.

Lemma window_lengths_nonneg (sampling_rate : Z) :
  0 <= sampling_rate ->
  0 <= st_segment_duration sampling_rate /\ 0 <= t_segment_start sampling_rate.
Proof.
  intros Hsr. unfold st_segment_duration, t_segment_start.
  split; apply Z.quot_pos; lia.
Qed.

(** X13.  With a sampling rate that is not negative and every window
    inside the signal, each TP and each ST segment has exactly the window
    length in samples, the pooled baseline can be taken, and the call
    returns "Normal" or "Abnormal". *)
Theorem analyze_st_segment_in_bounds (ecg_signal : list Q) (r_peak_indices : list Z)
    (sampling_rate : Z) :
  0 <= sampling_rate ->
  Forall (fun r_peak => windows_in_bounds ecg_signal sampling_rate r_peak = true)
         r_peak_indices ->
  Forall (fun segment => length segment = Z.to_nat (st_segment_duration sampling_rate))
         (tp_segments ecg_signal r_peak_indices sampling_rate
          ++ st_segments ecg_signal r_peak_indices sampling_rate)
  /\ (analyze_st_segment ecg_signal r_peak_indices sampling_rate = Ok "Normal"
      \/ analyze_st_segment ecg_signal r_peak_indices sampling_rate = Ok "Abnormal").
Proof.
  intros Hsr Hin.
  destruct (window_lengths_nonneg _ Hsr) as [Hdur Hstart].
  assert (Htp : Forall (fun segment =>
                          length segment = Z.to_nat (st_segment_duration sampling_rate))
                       (tp_segments ecg_signal r_peak_indices sampling_rate)).
  { unfold tp_segments. apply Forall_fmap. eapply Forall_impl; [exact Hin|].
    intros r Hr. simpl. unfold windows_in_bounds in Hr.
    rewrite slice_inside by lia. f_equal. lia. }
  assert (Hst : Forall (fun segment =>
                          length segment = Z.to_nat (st_segment_duration sampling_rate))
                       (st_segments ecg_signal r_peak_indices sampling_rate)).
  { unfold st_segments. apply Forall_fmap. eapply Forall_impl; [exact Hin|].
    intros r Hr. simpl. unfold windows_in_bounds in Hr.
    rewrite slice_inside by lia. f_equal. lia. }
  split; [by apply Forall_app|].
  unfold analyze_st_segment, np_mean_rows, np_asanyarray.
  rewrite (homogeneous_lengths _ _ Htp). cbn [Py.bind].
  match goal with
  | |- context [st_status ?a] => destruct (st_status_cases a) as [-> | ->]
  end; auto.
Qed.

Lemma analyze_st_segment_in_bounds_witness :
  analyze_st_segment Concrete.step_signal [10; 22] 100 = Ok "Normal"
  \/ analyze_st_segment Concrete.step_signal [10; 22] 100 = Ok "Abnormal".
Proof.
  apply (analyze_st_segment_in_bounds Concrete.step_signal [10; 22] 100); [lia|].
  repeat constructor.
Defined.

(** X14.  At a sampling rate from -12 to 12 both window lengths are 0 in
    samples ([int(0.08 * sampling_rate)] is 0): every segment is empty, the
    baseline and every amplitude are [NaN], and the result is "Normal"
    whatever the signal and the peaks. *)
Theorem analyze_st_segment_low_rate (ecg_signal : list Q) (r_peak_indices : list Z)
    (sampling_rate : Z) :
  -12 <= sampling_rate <= 12 ->
  analyze_st_segment ecg_signal r_peak_indices sampling_rate = Ok "Normal".
Proof.
  intros Hsr.
  assert (Hdur : st_segment_duration sampling_rate = 0).
  { unfold st_segment_duration. apply Z.quot_small_iff; lia. }
  assert (Htp : tp_segments ecg_signal r_peak_indices sampling_rate
                = map (fun _ => []) r_peak_indices).
  { unfold tp_segments. apply list_fmap_ext. intros i r _.
    by rewrite Hdur, Z.sub_0_r, slice_same. }
  assert (Hst : st_segments ecg_signal r_peak_indices sampling_rate
                = map (fun _ => []) r_peak_indices).
  { unfold st_segments. apply list_fmap_ext. intros i r _.
    by rewrite Hdur, Z.add_0_r, slice_same. }
  unfold analyze_st_segment, np_mean_rows, np_asanyarray.
  rewrite Htp, Hst.
  rewrite (homogeneous_lengths _ 0%nat) by (apply Forall_fmap, Forall_true; done).
  cbn [Py.bind]. rewrite concat_nils. f_equal.
  apply st_status_quiet. unfold st_amplitudes.
  rewrite <- list_fmap_compose. apply Forall_fmap, Forall_true. done.
Qed.

Lemma analyze_st_segment_low_rate_witness :
  analyze_st_segment Concrete.step_signal [10; 22; 45] 12 = Ok "Normal".
Proof. apply (analyze_st_segment_low_rate Concrete.step_signal [10; 22; 45] 12). lia. Defined.

(** X16.  A peak whose ST window starts at the end of the signal or
    beyond gives an empty ST segment and the amplitude [NaN], which is never
    above the limit: when this holds for every peak the result is never
    "Abnormal", whatever the samples are. *)
Theorem analyze_st_segment_windows_past_end (ecg_signal : list Q)
    (r_peak_indices : list Z) (sampling_rate : Z) :
  Forall (fun r_peak =>
            Z.of_nat (length ecg_signal) <= r_peak + t_segment_start sampling_rate)
         r_peak_indices ->
  analyze_st_segment ecg_signal r_peak_indices sampling_rate = Ok "Normal"
  \/ analyze_st_segment ecg_signal r_peak_indices sampling_rate = Raise ValueError.
Proof.
  intros Hpast. unfold analyze_st_segment, np_mean_rows, np_asanyarray.
  destruct (homogeneous (tp_segments ecg_signal r_peak_indices sampling_rate));
    cbn [Py.bind]; [left | by right].
  f_equal. apply st_status_quiet. unfold st_amplitudes, st_segments.
  rewrite <- list_fmap_compose. apply Forall_fmap.
  eapply Forall_impl; [exact Hpast|].
  intros r_peak Hr. simpl. by rewrite slice_past_end.
Qed.

Lemma analyze_st_segment_windows_past_end_witness :
  analyze_st_segment Concrete.step_signal [45; 50] 100 = Ok "Normal"
  \/ analyze_st_segment Concrete.step_signal [45; 50] 100 = Raise ValueError.
Proof.
  apply (analyze_st_segment_windows_past_end Concrete.step_signal [45; 50] 100).
  repeat constructor; vm_compute; discriminate.
Defined.

(** ** Rounding to 53 bits *)

Lemma round53_exact (N : Z) : N < 2 ^ 53 -> Float64.round53 N = N.
Proof.
  intros Hsmall. unfold Float64.round53.
  destruct (Z.leb_spec (Z.log2 N - 52) 0) as [_|Hbig]; [done|].
  destruct (Z.le_gt_cases N 0) as [Hle|Hpos].
  - rewrite (Z.log2_nonpos N Hle) in Hbig. lia.
  - apply (Z.log2_lt_pow2 N 53 Hpos) in Hsmall. lia.
Qed.

Lemma round53_cases (N : Z) :
  0 <= N ->
  Float64.round53 N = N
  \/ exists s m,
       1 <= s /\ 2 ^ s * 2 ^ 52 <= N /\ Float64.round53 N = m * 2 ^ s
       /\ N / 2 ^ s <= m <= N / 2 ^ s + 1.
Proof.
  intros HN. unfold Float64.round53.
  destruct (Z.leb_spec (Z.log2 N - 52) 0) as [_|Hbig]; [by left|].
  right. set (s := Z.log2 N - 52) in *.
  assert (Hpos : 0 < N).
  { destruct (Z.le_gt_cases N 0) as [Hle|Hpos]; [|done].
    unfold s in Hbig. rewrite (Z.log2_nonpos N Hle) in Hbig. lia. }
  destruct (Z.log2_spec N Hpos) as [Hlow _].
  replace (Z.log2 N) with (s + 52) in Hlow by (unfold s; lia).
  rewrite Z.pow_add_r in Hlow by lia.
  eexists s, _. split; [lia|]. split; [exact Hlow|]. split; [reflexivity|].
  destruct ((2 ^ (s - 1) <? N mod 2 ^ s)
            || (N mod 2 ^ s =? 2 ^ (s - 1)) && Z.odd (N / 2 ^ s)); lia.
Qed.

Lemma round53_nonneg (N : Z) : 0 <= N -> 0 <= Float64.round53 N.
Proof.
  intros HN. destruct (round53_cases N HN) as [-> | (s & m & Hs & Hlow & -> & Hm)]; [done|].
  assert (0 < 2 ^ s) by (apply Z.pow_pos_nonneg; lia).
  assert (0 <= N / 2 ^ s) by (apply Z.div_pos; lia).
  nia.
Qed.

(** Rounding adds at most one part in 2^52. *)
Lemma round53_upper (N : Z) : 0 <= N -> 2 ^ 52 * Float64.round53 N <= (2 ^ 52 + 1) * N.
Proof.
  intros HN. destruct (round53_cases N HN) as [-> | (s & m & Hs & Hlow & -> & Hm)]; [lia|].
  assert (HP : 0 < 2 ^ s) by (apply Z.pow_pos_nonneg; lia).
  pose proof (Z.mul_div_le N (2 ^ s) HP) as Hdiv.
  set (P := 2 ^ s) in *. set (d := N / P) in *.
  change (2 ^ 52) with 4503599627370496 in *. nia.
Qed.

(** Rounding never goes below an integer of at most 53 bits that the
    number reaches. *)
Lemma round53_ge (K N : Z) : K <= 2 ^ 53 -> K <= N -> K <= Float64.round53 N.
Proof.
  intros HK HKN. destruct (Z.le_gt_cases 0 N) as [HN|Hneg].
  - destruct (round53_cases N HN) as [-> | (s & m & Hs & Hlow & -> & Hm)]; [done|].
    assert (HP : 2 <= 2 ^ s).
    { change 2 with (2 ^ 1) at 1. apply Z.pow_le_mono_r; lia. }
    assert (Hd : 2 ^ 52 <= N / 2 ^ s).
    { apply Z.div_le_lower_bound; lia. }
    set (P := 2 ^ s) in *. set (d := N / P) in *.
    change (2 ^ 53) with 9007199254740992 in *.
    change (2 ^ 52) with 4503599627370496 in *. nia.
  - rewrite round53_exact; [done|]. change (2 ^ 53) with 9007199254740992. lia.
Qed.

(** ** Rounding a rational to binary64 *)

Lemma round_q_zero (q : Q) : (q == 0)%Q -> Float64.round_q q = 0%Q.
Proof.
  intros Hq. unfold Qeq in Hq. simpl in Hq. rewrite Z.mul_1_r in Hq.
  unfold Float64.round_q. by rewrite Hq.
Qed.

(** The rounded value keeps the sign: it is a mantissa of 1 or more over a
    power of two, with the sign of the numerator. *)
Lemma round_q_mantissa (q : Q) :
  Qnum q <> 0 ->
  exists r p, 1 <= r /\ (Float64.round_q q == (Z.sgn (Qnum q) * r # p))%Q.
Proof.
  intros Hnum. unfold Float64.round_q.
  destruct (Z.eqb_spec (Z.abs (Qnum q)) 0) as [Habs|Habs]; [lia|].
  set (a := Z.abs (Qnum q)) in *. set (b := Z.pos (Qden q)).
  set (k := Z.max 0 (55 + Z.log2 b - Z.log2 a)).
  set (sticky := if (a * 2 ^ k) mod b =? 0 then 0 else 1).
  eexists _, _. split; [|apply Qred_correct].
  assert (Ha : 0 < a) by lia.
  assert (Hb : 0 < b) by (unfold b; lia).
  assert (Hk : 0 <= k) by (unfold k; lia).
  assert (Hsticky : 0 <= sticky) by (unfold sticky; destruct (_ =? _); lia).
  assert (HN : 1 <= a * 2 ^ k / b).
  { apply Z.div_le_lower_bound; [exact Hb|]. rewrite Z.mul_1_r.
    destruct (Z.log2_spec a Ha) as [Ha1 _]. destruct (Z.log2_spec b Hb) as [_ Hb2].
    pose proof (Z.log2_nonneg a) as Hla. pose proof (Z.log2_nonneg b) as Hlb.
    assert (Hpow : 2 ^ Z.succ (Z.log2 b) <= 2 ^ (Z.log2 a + k)).
    { apply Z.pow_le_mono_r; [lia|]. unfold k. lia. }
    rewrite Z.pow_add_r in Hpow by lia.
    assert (Hk2 : 0 < 2 ^ k) by (apply Z.pow_pos_nonneg; lia).
    nia. }
  apply round53_ge; [done | lia].
Qed.

Lemma round_q_pos (q : Q) : (0 < q)%Q -> (0 < Float64.round_q q)%Q.
Proof.
  intros Hq. assert (Hnum : 0 < Qnum q).
  { unfold Qlt in Hq. simpl in Hq. lia. }
  destruct (round_q_mantissa q) as (r & p & Hr & ->); [lia|].
  unfold Qlt. simpl. rewrite Z.sgn_pos by exact Hnum. lia.
Qed.

Lemma round_q_neg (q : Q) : (q < 0)%Q -> (Float64.round_q q < 0)%Q.
Proof.
  intros Hq. assert (Hnum : Qnum q < 0).
  { unfold Qlt in Hq. simpl in Hq. lia. }
  destruct (round_q_mantissa q) as (r & p & Hr & ->); [lia|].
  unfold Qlt. simpl. rewrite Z.sgn_neg by exact Hnum. lia.
Qed.

Lemma round_q_nonneg (q : Q) : (0 <= q)%Q -> (0 <= Float64.round_q q)%Q.
Proof.
  intros Hq. destruct (Qlt_le_dec 0 q) as [Hpos|Hle].
  - by apply Qlt_le_weak, round_q_pos.
  - rewrite round_q_zero; [apply Qle_refl|]. by apply Qle_antisym.
Qed.

Lemma round_q_nonzero (q : Q) : ~ (q == 0)%Q -> ~ (Float64.round_q q == 0)%Q.
Proof.
  intros Hq Hzero. destruct (Q_dec q 0) as [[Hneg|Hpos]|Heq]; [| |done].
  - apply round_q_neg in Hneg. rewrite Hzero in Hneg. by apply Qlt_irrefl in Hneg.
  - apply round_q_pos in Hpos. rewrite Hzero in Hpos. by apply Qlt_irrefl in Hpos.
Qed.

(** ** The T-wave window *)

Section TWaveWindow.

Variable n : Z.
Hypothesis n_nonneg : 0 <= n.

Lemma t_wave_duration_short : n < 4 -> Float64.int_mul Float64.lit_0_25 n = 0.
Proof.
  intros Hshort.
  assert (Hcases : n = 0 \/ n = 1 \/ n = 2 \/ n = 3) by lia.
  destruct Hcases as [-> | [-> | [-> | ->]]]; reflexivity.
Qed.

Lemma t_wave_duration_positive : 4 <= n -> 1 <= Float64.int_mul Float64.lit_0_25 n.
Proof.
  intros Hlong. unfold Float64.int_mul. cbn [Float64.mant Float64.expo Float64.lit_0_25].
  rewrite Z.abs_eq, Z.sgn_pos, Z.mul_1_l, Z.mul_1_r by lia.
  apply Z.div_le_lower_bound; [done|].
  apply round53_ge; [done|]. apply round53_ge; [done | lia].
Qed.

Lemma t_wave_start_range :
  0 <= Float64.int_mul Float64.lit_0_35 n
  /\ (1 <= n -> Float64.int_mul Float64.lit_0_35 n < n).
Proof.
  unfold Float64.int_mul. cbn [Float64.mant Float64.expo Float64.lit_0_35].
  rewrite Z.abs_eq by lia.
  pose proof (round53_nonneg n n_nonneg) as HA.
  pose proof (round53_upper n n_nonneg) as HAup.
  set (A := Float64.round53 n) in *.
  assert (HN : 0 <= A * 3152519739159347) by lia.
  pose proof (round53_nonneg _ HN) as HR.
  pose proof (round53_upper _ HN) as HRup.
  set (R := Float64.round53 (A * 3152519739159347)) in *.
  assert (Hq : 0 <= R / 2 ^ 53) by (apply Z.div_pos; lia).
  pose proof (Z.mul_div_le R (2 ^ 53) ltac:(lia)) as Hfloor.
  set (q := R / 2 ^ 53) in *.
  change (2 ^ 53) with 9007199254740992 in *.
  change (2 ^ 52) with 4503599627370496 in *.
  split.
  - destruct (Z.sgn_spec n) as [[? ->] | [[? ->] | [? ->]]]; lia.
  - intros Hpos. rewrite Z.sgn_pos, Z.mul_1_l by lia. lia.
Qed.

End TWaveWindow.

Lemma t_wave_window_short (ecg_signal : list Q) :
  (length ecg_signal < 4)%nat -> t_wave_window ecg_signal = [].
Proof.
  intros Hshort. unfold t_wave_window.
  rewrite t_wave_duration_short by lia. rewrite Z.add_0_r. apply slice_same.
Qed.

Lemma t_wave_window_long (ecg_signal : list Q) :
  (4 <= length ecg_signal)%nat -> t_wave_window ecg_signal <> [].
Proof.
  intros Hlong Hnil. apply (f_equal length) in Hnil. revert Hnil.
  unfold t_wave_window. rewrite slice_length.
  set (n := Z.of_nat (length ecg_signal)).
  destruct (t_wave_start_range n ltac:(lia)) as [Hlow Hhigh].
  specialize (Hhigh ltac:(lia)).
  pose proof (t_wave_duration_positive n ltac:(lia) ltac:(lia)) as Hdur.
  unfold slice_bound.
  destruct (Z.ltb_spec (Float64.int_mul Float64.lit_0_35 n) 0); [lia|].
  destruct (Z.ltb_spec (Float64.int_mul Float64.lit_0_35 n
                        + Float64.int_mul Float64.lit_0_25 n) 0); [lia|].
  simpl. lia.
Qed.

(** ** [analyze_t_wave] *)

Lemma foldl_Qmax_ge (rest : list Q) (x : Q) : (x <= foldl Qmax x rest)%Q.
Proof.
  revert x. induction rest as [|y rest IH]; intros x; [apply Qle_refl|].
  simpl. apply Qle_trans with (Qmax x y); [apply Q.le_max_l | apply IH].
Qed.

Lemma foldl_Qmin_le (rest : list Q) (x : Q) : (foldl Qmin x rest <= x)%Q.
Proof.
  revert x. induction rest as [|y rest IH]; intros x; [apply Qle_refl|].
  simpl. apply Qle_trans with (Qmin x y); [apply IH | apply Q.le_min_l].
Qed.

Lemma Qmax_same (c : Q) : Qmax c c = c.
Proof. unfold Qmax, GenericMinMax.gmax. by destruct (c ?= c)%Q. Qed.

Lemma Qmin_same (c : Q) : Qmin c c = c.
Proof. unfold Qmin, GenericMinMax.gmin. by destruct (c ?= c)%Q. Qed.

Lemma foldl_Qmax_replicate (k : nat) (c : Q) : foldl Qmax c (replicate k c) = c.
Proof. induction k as [|k IH]; [done|]. simpl. by rewrite Qmax_same. Qed.

Lemma foldl_Qmin_replicate (k : nat) (c : Q) : foldl Qmin c (replicate k c) = c.
Proof. induction k as [|k IH]; [done|]. simpl. by rewrite Qmin_same. Qed.

(** X18.  On fewer than four samples, the empty signal among them, the
    window is empty ([int(0.25 * len)] is 0) and [analyze_t_wave] ends in
    the [ValueError] of the maximum of an empty array. *)
Theorem analyze_t_wave_short_signal (ecg_signal : list Q) (threshold : Q) :
  (length ecg_signal < 4)%nat ->
  analyze_t_wave ecg_signal threshold = Raise ValueError.
Proof.
  intros Hshort. unfold analyze_t_wave. by rewrite t_wave_window_short.
Qed.

Lemma analyze_t_wave_short_signal_witness :
  analyze_t_wave [1; 5; 2]%Q (1 # 10) = Raise ValueError.
Proof. apply (analyze_t_wave_short_signal [1; 5; 2]%Q (1 # 10)). simpl. lia. Defined.

Lemma foldl_Qmax_in (rest : list Q) (x : Q) : foldl Qmax x rest ∈ x :: rest.
Proof.
  revert x. induction rest as [|y rest IH]; intros x; [apply list_elem_of_here|].
  simpl. specialize (IH (Qmax x y)). apply elem_of_cons in IH as [-> | Hin].
  - unfold Qmax, GenericMinMax.gmax. destruct (x ?= y)%Q.
    + apply list_elem_of_here.
    + apply list_elem_of_further, list_elem_of_here.
    + apply list_elem_of_here.
  - by do 2 apply list_elem_of_further.
Qed.

Lemma foldl_Qmin_in (rest : list Q) (x : Q) : foldl Qmin x rest ∈ x :: rest.
Proof.
  revert x. induction rest as [|y rest IH]; intros x; [apply list_elem_of_here|].
  simpl. specialize (IH (Qmin x y)). apply elem_of_cons in IH as [-> | Hin].
  - unfold Qmin, GenericMinMax.gmin. destruct (x ?= y)%Q.
    + apply list_elem_of_here.
    + apply list_elem_of_here.
    + apply list_elem_of_further, list_elem_of_here.
  - by do 2 apply list_elem_of_further.
Qed.

Lemma foldl_Qmax_upper (rest : list Q) (x v : Q) :
  v ∈ x :: rest -> (v <= foldl Qmax x rest)%Q.
Proof.
  revert x. induction rest as [|y rest IH]; intros x Hin.
  - apply list_elem_of_singleton in Hin as ->. apply Qle_refl.
  - simpl. apply elem_of_cons in Hin as [-> | Hin].
    + apply Qle_trans with (Qmax x y); [apply Q.le_max_l | apply foldl_Qmax_ge].
    + apply elem_of_cons in Hin as [-> | Hin].
      * apply Qle_trans with (Qmax x y); [apply Q.le_max_r | apply foldl_Qmax_ge].
      * apply IH. by apply list_elem_of_further.
Qed.

Lemma foldl_Qmin_lower (rest : list Q) (x v : Q) :
  v ∈ x :: rest -> (foldl Qmin x rest <= v)%Q.
Proof.
  revert x. induction rest as [|y rest IH]; intros x Hin.
  - apply list_elem_of_singleton in Hin as ->. apply Qle_refl.
  - simpl. apply elem_of_cons in Hin as [-> | Hin].
    + apply Qle_trans with (Qmin x y); [apply foldl_Qmin_le | apply Q.le_min_l].
    + apply elem_of_cons in Hin as [-> | Hin].
      * apply Qle_trans with (Qmin x y); [apply foldl_Qmin_le | apply Q.le_min_r].
      * apply IH. by apply list_elem_of_further.
Qed.

(** X19.  On four samples or more the window is never empty and lies
    inside the signal, whatever the rounding of [0.35 * len] does:
    [analyze_t_wave] returns.  The two samples it compares are samples of
    the window, the largest and the smallest, and the answer is "Abnormal"
    exactly when their difference, rounded to a float, is below the
    threshold. *)
Theorem analyze_t_wave_returns (ecg_signal : list Q) (threshold : Q) :
  (4 <= length ecg_signal)%nat ->
  exists highest lowest,
    highest ∈ t_wave_window ecg_signal
    /\ lowest ∈ t_wave_window ecg_signal
    /\ (forall v, v ∈ t_wave_window ecg_signal -> (lowest <= v <= highest)%Q)
    /\ (forall v, v ∈ t_wave_window ecg_signal -> v ∈ ecg_signal)
    /\ analyze_t_wave ecg_signal threshold
       = Ok (if Qlt_bool (Float64.round_q (highest - lowest)) threshold
             then "Abnormal" else "Normal").
Proof.
  intros Hlong. pose proof (t_wave_window_long ecg_signal Hlong) as Hne.
  assert (Hpart : forall v, v ∈ t_wave_window ecg_signal -> v ∈ ecg_signal).
  { intros v Hin. unfold t_wave_window, slice in Hin.
    apply elem_of_take in Hin as (i & Hi & _). rewrite lookup_drop in Hi.
    by eapply list_elem_of_lookup_2. }
  unfold analyze_t_wave. revert Hpart.
  destruct (t_wave_window ecg_signal) as [|x rest]; [done|]. intros Hpart.
  exists (foldl Qmax x rest), (foldl Qmin x rest).
  split; [apply foldl_Qmax_in|]. split; [apply foldl_Qmin_in|]. split; [|split].
  - intros v Hin. split; [by apply foldl_Qmin_lower | by apply foldl_Qmax_upper].
  - exact Hpart.
  - cbn [np_max np_min Py.bind]. by destruct (Qlt_bool _ threshold).
Qed.

(** The window [1, 2^-60] at threshold 1: the difference rounds to 1, which
    is not below the threshold. *)
Lemma analyze_t_wave_returns_witness :
  analyze_t_wave [0; 0; 0; 1; 1 # 2 ^ 60; 0; 0; 0]%Q 1 = Ok "Normal"
  /\ exists highest lowest,
       highest ∈ t_wave_window [0; 0; 0; 1; 1 # 2 ^ 60; 0; 0; 0]%Q
       /\ lowest ∈ t_wave_window [0; 0; 0; 1; 1 # 2 ^ 60; 0; 0; 0]%Q
       /\ analyze_t_wave [0; 0; 0; 1; 1 # 2 ^ 60; 0; 0; 0]%Q 1
          = Ok (if Qlt_bool (Float64.round_q (highest - lowest)) 1
                then "Abnormal" else "Normal").
Proof.
  split; [vm_compute; reflexivity|].
  destruct (analyze_t_wave_returns [0; 0; 0; 1; 1 # 2 ^ 60; 0; 0; 0]%Q 1)
    as (highest & lowest & Hhigh & Hlow & _ & _ & Hrun); [simpl; lia|].
  by exists highest, lowest.
Defined.

(** X20.  With a threshold of 0 or below no signal of four samples or more
    is "Abnormal": the amplitude, a maximum less a minimum of one window,
    is never negative. *)
Theorem analyze_t_wave_nonpositive_threshold (ecg_signal : list Q) (threshold : Q) :
  (4 <= length ecg_signal)%nat ->
  (threshold <= 0)%Q ->
  analyze_t_wave ecg_signal threshold = Ok "Normal".
Proof.
  intros Hlong Hthr. pose proof (t_wave_window_long ecg_signal Hlong) as Hne.
  unfold analyze_t_wave.
  destruct (t_wave_window ecg_signal) as [|x rest]; [done|].
  cbn [np_max np_min Py.bind].
  assert (Hle : Qle_bool threshold
                  (Float64.round_q (foldl Qmax x rest - foldl Qmin x rest)) = true).
  { apply Qle_bool_iff. apply Qle_trans with 0%Q; [done|]. apply round_q_nonneg.
    apply (proj1 (Qle_minus_iff (foldl Qmin x rest) (foldl Qmax x rest))).
    apply Qle_trans with x; [apply foldl_Qmin_le | apply foldl_Qmax_ge]. }
  unfold Qlt_bool. by rewrite Hle.
Qed.

Lemma analyze_t_wave_nonpositive_threshold_witness :
  analyze_t_wave (map inject_Z [0; 1; 2; 3; 9; 5; 6; 7; 8; 9]) 0 = Ok "Normal".
Proof.
  apply (analyze_t_wave_nonpositive_threshold
           (map inject_Z [0; 1; 2; 3; 9; 5; 6; 7; 8; 9]) 0).
  - simpl. lia.
  - apply Qle_refl.
Defined.

(** X21.  A flat signal of four samples or more is "Abnormal" for every
    positive threshold: its amplitude is 0. *)
Theorem analyze_t_wave_flat_signal (n : nat) (c threshold : Q) :
  (4 <= n)%nat ->
  (0 < threshold)%Q ->
  analyze_t_wave (replicate n c) threshold = Ok "Abnormal".
Proof.
  intros Hlong Hthr.
  assert (Hne : t_wave_window (replicate n c) <> []).
  { apply t_wave_window_long. by rewrite length_replicate. }
  unfold analyze_t_wave. revert Hne. unfold t_wave_window.
  match goal with
  | |- context [slice (replicate n c) ?a ?b] =>
      destruct (slice_replicate n c a b) as [k ->]
  end.
  destruct k as [|k]; [done|]. intros _.
  cbn [replicate np_max np_min Py.bind].
  rewrite foldl_Qmax_replicate, foldl_Qmin_replicate.
  rewrite (round_q_zero (c - c)) by ring.
  assert (Hle : Qle_bool threshold 0 = false).
  { destruct (Qle_bool threshold 0) eqn:E; [|done].
    apply Qle_bool_iff in E. exfalso. apply (Qlt_irrefl 0).
    by apply Qlt_le_trans with threshold. }
  unfold Qlt_bool. by rewrite Hle.
Qed.

Lemma analyze_t_wave_flat_signal_witness :
  analyze_t_wave (replicate 10 (3 # 4)%Q) (1 # 10) = Ok "Abnormal".
Proof.
  apply (analyze_t_wave_flat_signal 10 (3 # 4)%Q (1 # 10)); [lia | reflexivity].
Defined.

(** ** The window lengths of [analyze_st_segment] in binary64 *)

(** A literal [C * 2^-E] that lies [d / (den * 2^E)] above the fraction
    [num / den], times an int below 2^45: rounding the product and dropping
    its fraction gives the integer part of [num * n / den]. *)
Lemma int_mul_floor (C E num den d n : Z) :
  0 < den -> 0 <= num -> 0 <= d -> 45 <= E ->
  den * C = num * 2 ^ E + d ->
  C < 2 ^ 53 ->
  (d + den) * 2 ^ 45 < 2 ^ E ->
  0 <= n < 2 ^ 45 ->
  Float64.round53 (n * C) / 2 ^ E = num * n / den.
Proof.
  intros Hden Hnum Hd HE Hlit HC Hgap Hn.
  assert (HT : 0 < 2 ^ E) by (apply Z.pow_pos_nonneg; lia).
  pose proof (Z.div_mod (num * n) den ltac:(lia)) as Hdiv.
  pose proof (Z.mod_pos_bound (num * n) den Hden) as Hmod.
  set (q := num * n / den) in *. set (r := (num * n) mod den) in *.
  assert (Hq : 0 <= q) by (apply Z.div_pos; nia).
  assert (HC0 : 0 <= C) by nia.
  set (T := 2 ^ E) in *. set (G := 2 ^ 45) in *.
  assert (HG : 0 < G) by (unfold G; lia).
  assert (Hprod : den * (n * C) = (den * q + r) * T + d * n) by nia.
  assert (Hlow : q * T <= n * C) by nia.
  assert (Hhigh : n * C + G < (q + 1) * T) by nia.
  assert (Hrange : q * T <= Float64.round53 (n * C) < (q + 1) * T).
  { destruct (round53_cases (n * C) ltac:(nia)) as [-> | (s & m & Hs & Hbig & -> & Hm)];
      [lia|].
    assert (Hs45 : s <= 45).
    { destruct (Z.le_gt_cases s 45) as [|Hgt]; [done|]. exfalso.
      assert (2 ^ 46 <= 2 ^ s) by (apply Z.pow_le_mono_r; lia).
      assert (n * C < 2 ^ 45 * 2 ^ 53) by (fold G; nia).
      change (2 ^ 46) with 70368744177664 in *.
      change (2 ^ 52) with 4503599627370496 in *.
      change (2 ^ 45 * 2 ^ 53) with 316912650057057350374175801344 in *.
      nia. }
    assert (HP : 0 < 2 ^ s) by (apply Z.pow_pos_nonneg; lia).
    assert (HPG : 2 ^ s <= G) by (apply Z.pow_le_mono_r; lia).
    assert (HTP : T = 2 ^ s * 2 ^ (E - s)).
    { unfold T. rewrite <- Z.pow_add_r by lia. f_equal. lia. }
    assert (HU : 0 < 2 ^ (E - s)) by (apply Z.pow_pos_nonneg; lia).
    pose proof (Z.mul_div_le (n * C) (2 ^ s) HP) as Hfloor.
    assert (Hdlow : q * 2 ^ (E - s) <= n * C / 2 ^ s).
    { apply Z.div_le_lower_bound; [done|]. rewrite HTP in Hlow. nia. }
    set (P := 2 ^ s) in *. set (U := 2 ^ (E - s)) in *.
    set (f := n * C / P) in *.
    split; [rewrite HTP; nia | nia]. }
  symmetry. apply (Z.div_unique_pos _ _ q (Float64.round53 (n * C) - q * T)); lia.
Qed.

Lemma int_mul_quot (c : Float64.literal) (num den d n : Z) :
  0 < den -> 0 <= num -> 0 <= d -> 45 <= Float64.expo c ->
  den * Float64.mant c = num * 2 ^ Float64.expo c + d ->
  Float64.mant c < 2 ^ 53 ->
  (d + den) * 2 ^ 45 < 2 ^ Float64.expo c ->
  - 2 ^ 45 < n < 2 ^ 45 ->
  Float64.int_mul c n = Z.quot (num * n) den.
Proof.
  intros Hden Hnum Hd HE Hlit HC Hgap Hn. unfold Float64.int_mul.
  assert (Habs : 0 <= Z.abs n < 2 ^ 45) by lia.
  rewrite (round53_exact (Z.abs n)) by (change (2 ^ 53) with 9007199254740992; lia).
  rewrite (int_mul_floor _ _ num den d (Z.abs n)) by assumption.
  destruct (Z.sgn_spec n) as [[Hpos ->] | [[Hzero ->] | [Hneg ->]]].
  - rewrite Z.abs_eq, Z.mul_1_l by lia. symmetry. apply Z.quot_div_nonneg; nia.
  - rewrite <- Hzero, !Z.mul_0_r, Z.quot_0_l by lia. reflexivity.
  - rewrite Z.abs_neq by lia.
    replace (num * n) with (- (num * - n)) by lia.
    rewrite Z.quot_opp_l by lia.
    rewrite Z.quot_div_nonneg by nia. lia.
Qed.

(** X22.  For a sampling rate between -2^45 and 2^45 the two window
    lengths, computed by the source in binary64 as
    [int(0.08 * sampling_rate)] and [int(0.2 * sampling_rate)], are exactly
    8 and 20 hundredths of the sampling rate with the fraction dropped:
    rounding never moves them across an integer. *)
Theorem window_lengths_binary64 (sampling_rate : Z) :
  - 2 ^ 45 < sampling_rate < 2 ^ 45 ->
  Float64.int_mul Float64.lit_0_08 sampling_rate = st_segment_duration sampling_rate
  /\ Float64.int_mul Float64.lit_0_2 sampling_rate = t_segment_start sampling_rate.
Proof.
  intros Hsr. unfold st_segment_duration, t_segment_start. split.
  - apply (int_mul_quot Float64.lit_0_08 8 100 12); try done; vm_compute; done.
  - apply (int_mul_quot Float64.lit_0_2 2 10 2); try done; vm_compute; done.
Qed.

Lemma window_lengths_binary64_witness :
  Float64.int_mul Float64.lit_0_08 125 = st_segment_duration 125
  /\ Float64.int_mul Float64.lit_0_2 125 = t_segment_start 125.
Proof. apply (window_lengths_binary64 125). split; reflexivity. Defined.

(** ** [np.diff] on int64 *)

Lemma wrap64_small (z : Z) : - 2 ^ 63 <= z < 2 ^ 63 -> wrap64 z = z.
Proof.
  intros Hz. unfold wrap64. rewrite Z.mod_small; [lia|].
  change (2 ^ 64) with (2 * 2 ^ 63). lia.
Qed.

Lemma np_diff_length (xs : list Z) : length (np_diff xs) = (length xs - 1)%nat.
Proof.
  induction xs as [|a [|b rest] IH]; [done | done |].
  change (np_diff (a :: b :: rest)) with (wrap64 (b - a) :: np_diff (b :: rest)).
  rewrite length_cons, IH. simpl. by rewrite Nat.sub_0_r.
Qed.

Lemma np_diff_lookup (xs : list Z) (k : nat) (a b : Z) :
  xs !! k = Some a -> xs !! S k = Some b -> np_diff xs !! k = Some (wrap64 (b - a)).
Proof.
  revert k. induction xs as [|x [|y rest] IH]; intros k Ha Hb; [done | done |].
  change (np_diff (x :: y :: rest)) with (wrap64 (y - x) :: np_diff (y :: rest)).
  destruct k as [|k].
  - simpl in *. congruence.
  - simpl. apply IH; [exact Ha | exact Hb].
Qed.

Lemma np_diff_lookup_inv (xs : list Z) (k : nat) (d : Z) :
  np_diff xs !! k = Some d ->
  exists a b, xs !! k = Some a /\ xs !! S k = Some b /\ d = wrap64 (b - a).
Proof.
  revert k. induction xs as [|x [|y rest] IH]; intros k Hd; [done | done |].
  change (np_diff (x :: y :: rest)) with (wrap64 (y - x) :: np_diff (y :: rest)) in Hd.
  destruct k as [|k].
  - injection Hd as <-. by exists x, y.
  - apply IH in Hd as (a & b & Ha & Hb & ->). by exists a, b.
Qed.

(** ** Division of two floats *)


Lemma inject_Z_positive (z : Z) : 0 < z -> (0 < inject_Z z)%Q.
Proof. intros Hz. unfold Qlt. simpl. lia. Qed.

Lemma np_divide_finite (x y : Q) :
  ~ (y == 0)%Q ->
  Float64.np_divide (Fin x) (Fin y)
  = Fin (Float64.round_q (Float64.round_q x / Float64.round_q y)).
Proof.
  intros Hy. unfold Float64.np_divide. cbn [Float64.np_round]. unfold np_div.
  rewrite Qeq_bool_false by (by apply round_q_nonzero). reflexivity.
Qed.


Lemma np_divide_by_zero (x : Q) :
  (0 < x)%Q -> Float64.np_divide (Fin x) (Fin (inject_Z 0)) = PInf.
Proof.
  intros Hx. apply round_q_pos in Hx.
  unfold Float64.np_divide. cbn [Float64.np_round].
  change (Float64.round_q (inject_Z 0)) with 0%Q. unfold np_div.
  change (Qeq_bool 0 0) with true. cbv iota.
  rewrite Qeq_bool_false.
  - assert (Hlt : Qlt_bool 0 (Float64.round_q x) = true).
    { unfold Qlt_bool. apply negb_true_iff.
      destruct (Qle_bool (Float64.round_q x) 0) eqn:E; [|done].
      apply Qle_bool_iff in E. exfalso. apply (Qlt_irrefl 0).
      by apply Qlt_le_trans with (Float64.round_q x). }
    by rewrite Hlt.
  - intros Hzero. rewrite Hzero in Hx. by apply Qlt_irrefl in Hx.
Qed.

(** ** [calculate_heart_rate] on two peaks or more *)

Section HeartRate.

Variables (r_peak_indices : list Z) (sampling_rate : Z).
Hypothesis enough_peaks : (2 <= length r_peak_indices)%nat.

Lemma calculate_heart_rate_tuple (np_mean : list npfloat -> npfloat) :
  Rounded.calculate_heart_rate np_mean r_peak_indices sampling_rate
  = RetTuple
      (Float64.np_divide (Fin 60)
         (np_mean (map (fun d => Float64.np_divide (Fin (inject_Z d))
                                                   (Fin (inject_Z sampling_rate)))
                       (np_diff r_peak_indices))))
      (map (fun d => Float64.np_divide (Fin (inject_Z d)) (Fin (inject_Z sampling_rate)))
           (np_diff r_peak_indices)).
Proof.
  unfold Rounded.calculate_heart_rate.
  destruct (Nat.leb_spec (length r_peak_indices) 1) as [Hle|_]; [lia | done].
Qed.

(** Indices of an int64 array that are not negative: no difference wraps
    around. *)
Hypothesis peaks_in_range : Forall (fun r_peak => 0 <= r_peak < 2 ^ 63) r_peak_indices.

Lemma np_diff_in_range (k : nat) (d : Z) :
  np_diff r_peak_indices !! k = Some d ->
  exists a b,
    r_peak_indices !! k = Some a /\ r_peak_indices !! S k = Some b /\ d = b - a.
Proof.
  intros Hd. apply np_diff_lookup_inv in Hd as (a & b & Ha & Hb & ->).
  exists a, b. split; [exact Ha|]. split; [exact Hb|].
  pose proof (proj1 (Forall_lookup _ _) peaks_in_range _ _ Ha) as Hra.
  pose proof (proj1 (Forall_lookup _ _) peaks_in_range _ _ Hb) as Hrb.
  simpl in Hra, Hrb. apply wrap64_small. lia.
Qed.

End HeartRate.

Lemma calculate_heart_rate_exact_mean (r_peak_indices : list Z) (sampling_rate : Z) :
  calculate_heart_rate r_peak_indices sampling_rate
  = Rounded.calculate_heart_rate np_mean_f r_peak_indices sampling_rate.
Proof. reflexivity. Qed.



(** X6.  With two peaks or more, each an index from 0 up that an int64
    holds, and a sampling rate other than 0 that an int64 holds,
    [calculate_heart_rate] returns a pair whose interval series has one
    entry less than there are peaks, the entry at [k] being the float
    quotient of the distance from peak [k] to peak [k + 1] and the sampling
    rate, each made a float first. *)
Theorem calculate_heart_rate_intervals (r_peak_indices : list Z) (sampling_rate : Z) :
  (2 <= length r_peak_indices)%nat ->
  Forall (fun r_peak => 0 <= r_peak < 2 ^ 63) r_peak_indices ->
  sampling_rate <> 0 ->
  - 2 ^ 63 <= sampling_rate < 2 ^ 63 ->
  exists heart_rate rr_intervals,
    calculate_heart_rate r_peak_indices sampling_rate = RetTuple heart_rate rr_intervals
    /\ length rr_intervals = (length r_peak_indices - 1)%nat
    /\ forall k a b,
         r_peak_indices !! k = Some a -> r_peak_indices !! S k = Some b ->
         rr_intervals !! k
         = Some (Fin (Float64.round_q
                        (Float64.round_q (inject_Z (b - a))
                         / Float64.round_q (inject_Z sampling_rate)))).
Proof.
  intros Hlen Hrange Hsr _. eexists _, _.
  split; [rewrite calculate_heart_rate_exact_mean; by apply calculate_heart_rate_tuple|].
  split; [by rewrite length_map, np_diff_length|].
  intros k a b Ha Hb.
  rewrite list_lookup_fmap, (np_diff_lookup _ _ _ _ Ha Hb).
  cbn [fmap option_fmap option_map].
  pose proof (proj1 (Forall_lookup _ _) Hrange _ _ Ha) as Hra.
  pose proof (proj1 (Forall_lookup _ _) Hrange _ _ Hb) as Hrb.
  simpl in Hra, Hrb. rewrite wrap64_small by lia.
  rewrite np_divide_finite by (by apply inject_Z_nonzero). reflexivity.
Qed.

Lemma calculate_heart_rate_intervals_witness :
  exists heart_rate rr_intervals,
    calculate_heart_rate [100; 350; 600] 125 = RetTuple heart_rate rr_intervals
    /\ length rr_intervals = 2%nat
    /\ rr_intervals !! 1%nat = Some (Fin 2).
Proof.
  destruct (calculate_heart_rate_intervals [100; 350; 600] 125)
    as (hr & rr & Hrun & Hlen & Hrr).
  - simpl. lia.
  - repeat constructor; lia.
  - lia.
  - lia.
  - exists hr, rr. split; [exact Hrun|]. split; [exact Hlen|].
    rewrite (Hrr 1%nat 350 600); [|reflexivity|reflexivity].
    vm_compute. reflexivity.
Defined.

Lemma np_add_PInf (n : nat) : foldr np_add (Fin 0) (replicate (S n) PInf) = PInf.
Proof. induction n as [|n IH]; [done|]. cbn [replicate foldr] in *. by rewrite IH. Qed.

(** X8.  A sampling rate of 0 raises nothing: with strictly increasing
    peaks, each an index from 0 up that an int64 holds, every interval is
    the infinity that NumPy gives for a division by zero, and the heart rate
    is 60 over infinity, that is 0. *)
Theorem calculate_heart_rate_zero_rate (r_peak_indices : list Z) :
  (2 <= length r_peak_indices)%nat ->
  Forall (fun r_peak => 0 <= r_peak < 2 ^ 63) r_peak_indices ->
  (forall k a b, r_peak_indices !! k = Some a -> r_peak_indices !! S k = Some b -> a < b) ->
  calculate_heart_rate r_peak_indices 0
  = RetTuple (Fin 0) (replicate (length r_peak_indices - 1) PInf).
Proof.
  intros Hlen Hrange Hinc.
  rewrite calculate_heart_rate_exact_mean, (calculate_heart_rate_tuple _ _ Hlen).
  assert (Hrr : map (fun d => Float64.np_divide (Fin (inject_Z d)) (Fin (inject_Z 0)))
                    (np_diff r_peak_indices)
                = replicate (length r_peak_indices - 1) PInf).
  { rewrite <- np_diff_length. apply list_eq. intros k.
    rewrite list_lookup_fmap.
    destruct (np_diff r_peak_indices !! k) as [d|] eqn:Hd.
    - rewrite lookup_replicate_2 by (by eapply lookup_lt_Some).
      apply (np_diff_in_range _ Hlen Hrange) in Hd as (a & b & Ha & Hb & ->).
      specialize (Hinc _ _ _ Ha Hb). cbn [fmap option_fmap option_map]. f_equal.
      apply np_divide_by_zero, inject_Z_positive. lia.
    - symmetry. apply lookup_replicate_None.
      apply lookup_ge_None_1 in Hd. lia. }
  rewrite Hrr. f_equal.
  destruct (length r_peak_indices - 1)%nat as [|n] eqn:Hn; [lia|].
  unfold np_mean_f. rewrite np_add_PInf, length_replicate.
  unfold np_div at 1.
  assert (Hneg : Qlt_bool (inject_Z (Z.of_nat (S n))) 0 = false).
  { unfold Qlt_bool. apply negb_false_iff, Qle_bool_iff.
    unfold Qle. simpl. lia. }
  by rewrite Hneg.
Qed.

Lemma calculate_heart_rate_zero_rate_witness :
  calculate_heart_rate [100; 350; 600] 0 = RetTuple (Fin 0) (replicate (3 - 1) PInf).
Proof.
  apply (calculate_heart_rate_zero_rate [100; 350; 600]).
  - simpl. lia.
  - repeat constructor; lia.
  - intros k a b Ha Hb.
    destruct k as [|[|[|k]]]; simpl in Ha, Hb; try discriminate;
      injection Ha as <-; injection Hb as <-; lia.
Defined.



(** ** [find_r_peaks] *)

(** X24.  Raising the detection threshold only removes R-peaks: the peaks
    found at the higher threshold are, in order, among those found at the
    lower one, whatever sampling rate is passed; and every peak found has a
    sample at or above the threshold. *)
Theorem find_r_peaks_threshold `{SciPy} (ecg_signal : list Q) (low high : Q)
    (sampling_rate sampling_rate' : Z) :
  (low <= high)%Q ->
  find_r_peaks ecg_signal high sampling_rate
    `sublist_of` find_r_peaks ecg_signal low sampling_rate'
  /\ Forall (fun peak => exists v, ecg_signal !! Z.to_nat peak = Some v /\ (high <= v)%Q)
            (find_r_peaks ecg_signal high sampling_rate).
Proof.
  intros Hle. unfold find_r_peaks, find_peaks_height. split.
  - induction (find_peaks ecg_signal) as [|peak peaks IH]; [done|]. simpl.
    destruct (peak <? 0); [exact IH|].
    destruct (ecg_signal !! Z.to_nat peak) as [v|]; [|exact IH].
    destruct (Qle_bool high v) eqn:Ehigh.
    + assert (Elow : Qle_bool low v = true).
      { apply Qle_bool_iff. apply Qle_trans with high; [done|]. by apply Qle_bool_iff. }
      rewrite Elow. by apply sublist_skip.
    + destruct (Qle_bool low v); [by apply sublist_cons | exact IH].
  - apply Forall_forall. intros peak Hin%list_elem_of_In.
    apply filter_In in Hin as [_ Hkeep].
    destruct (peak <? 0); [done|].
    destruct (ecg_signal !! Z.to_nat peak) as [v|]; [|done].
    exists v. split; [done|]. by apply Qle_bool_iff.
Qed.

Lemma find_r_peaks_threshold_witness :
  @find_r_peaks Concrete.local_maxima [0; 1; 0; 3; 0; 2; 0]%Q 2 125
    `sublist_of` @find_r_peaks Concrete.local_maxima [0; 1; 0; 3; 0; 2; 0]%Q (1 # 2) 1000
  /\ @find_r_peaks Concrete.local_maxima [0; 1; 0; 3; 0; 2; 0]%Q 2 125 = [3; 5]
  /\ @find_r_peaks Concrete.local_maxima [0; 1; 0; 3; 0; 2; 0]%Q (1 # 2) 1000 = [1; 3; 5].
Proof.
  split; [|split; vm_compute; reflexivity].
  apply (@find_r_peaks_threshold Concrete.local_maxima [0; 1; 0; 3; 0; 2; 0]%Q
           (1 # 2) 2 125 1000).
  vm_compute. discriminate.
Defined.
